(** * BJJTimer: the timer state module and the timer engine

    A shallow embedding of [src/utils/TimerState.js] and of the
    [TimerLogic] class, and the properties of the specification checked
    against them.

    Conventions of the embedding.
    - A JavaScript number holding a duration or a timestamp is an integer
      number of milliseconds, a [Z]; [Date.now()] returns integers, and
      the user interface feeds whole seconds.  The one constant that is
      not an integer, [RENDER_RATE = 1000 / 30], is a rational [Q].
    - A field that is [null] or a number is an [option Z].  JavaScript's
      truthiness test of such a field ([!x], [x || d]) is [truthy]: both
      [null] and [0] are falsy.
    - The host (the wall clock, the interval timers, the audio player and
      the subscriber callbacks) is outside the program.  A method is a
      function from [this] to a computation in the monad [M], which
      threads the host and collects the calls made to the outside as a
      list of [Event]s, in the order of the calls. *)

From Stdlib Require Import ZArith QArith List Bool Lia.
From Stdlib Require String Ascii DecimalString.
Import ListNotations.
Local Open Scope Z_scope.

(* ================================================================== *)
(** ** The state module: [TimerState.js] *)

Module TimerState.

(** [TIMER_PHASES] *)
Inductive Phase : Type := IDLE | WORK.

Definition Phase_eqb (p q : Phase) : bool :=
  match p, q with
  | IDLE, IDLE | WORK, WORK => true
  | _, _ => false
  end.

(** [TIMER_CONSTANTS] *)
Definition SECOND : Z := 1000.
Definition MINUTE : Z := 60 * 1000.
Definition RENDER_RATE : Q := 1000 # 30.
Definition SOON_TIME : Z := 10 * 1000.
Definition MIN_ROUND_TIME : Z := 30 * 1000.

Record TimerState : Type := mkState {
  isRunning : bool;
  timeLeft : Z;
  phase : Phase;
  startTime : option Z;
  sessionStartTime : option Z;
  roundTime : Z;
  soonSoundPlayed : bool
}.

(** Assignments to one field, [state.f = v]. *)
Definition set_isRunning (v : bool) (s : TimerState) : TimerState :=
  mkState v (timeLeft s) (phase s) (startTime s) (sessionStartTime s)
          (roundTime s) (soonSoundPlayed s).
Definition set_timeLeft (v : Z) (s : TimerState) : TimerState :=
  mkState (isRunning s) v (phase s) (startTime s) (sessionStartTime s)
          (roundTime s) (soonSoundPlayed s).
Definition set_phase (v : Phase) (s : TimerState) : TimerState :=
  mkState (isRunning s) (timeLeft s) v (startTime s) (sessionStartTime s)
          (roundTime s) (soonSoundPlayed s).
Definition set_startTime (v : option Z) (s : TimerState) : TimerState :=
  mkState (isRunning s) (timeLeft s) (phase s) v (sessionStartTime s)
          (roundTime s) (soonSoundPlayed s).
Definition set_sessionStartTime (v : option Z) (s : TimerState) : TimerState :=
  mkState (isRunning s) (timeLeft s) (phase s) (startTime s) v
          (roundTime s) (soonSoundPlayed s).
Definition set_roundTime (v : Z) (s : TimerState) : TimerState :=
  mkState (isRunning s) (timeLeft s) (phase s) (startTime s)
          (sessionStartTime s) v (soonSoundPlayed s).
Definition set_soonSoundPlayed (v : bool) (s : TimerState) : TimerState :=
  mkState (isRunning s) (timeLeft s) (phase s) (startTime s)
          (sessionStartTime s) (roundTime s) v.

(** The object [{ roundTime }] that [validateSettings] returns. *)
Record Settings : Type := mkSettings { settings_roundTime : Z }.

(** [createInitialState(roundTime)] *)
Definition createInitialState (rt : Z) : TimerState :=
  {| isRunning := false;
     timeLeft := rt;
     phase := IDLE;
     startTime := None;
     sessionStartTime := None;
     roundTime := rt;
     soonSoundPlayed := false |}.

(** [validateSettings(roundTime)]: [Math.max(MIN_ROUND_TIME, roundTime)] *)
Definition validateSettings (rt : Z) : Settings :=
  {| settings_roundTime := Z.max MIN_ROUND_TIME rt |}.

(** [getCurrentPhaseDuration(state)] *)
Definition getCurrentPhaseDuration (s : TimerState) : Z := roundTime s.

(** [shouldTransitionPhase(state)]: [state.timeLeft <= 0] *)
Definition shouldTransitionPhase (s : TimerState) : bool := timeLeft s <=? 0.

(** The pure part of [createPhaseTransition(state, newPhase)], once
    [Date.now()] has been read into [now]: the object
    [{ ...state, ...updates }]. *)
Definition phaseTransitionAt (now : Z) (s : TimerState) (newPhase : Phase)
  : TimerState :=
  (* updates = { phase, startTime: now, soonSoundPlayed: false } *)
  let s1 := set_soonSoundPlayed false
              (set_startTime (Some now) (set_phase newPhase s)) in
  match newPhase with
  | WORK => set_timeLeft (roundTime s) s1
  | IDLE =>
      set_sessionStartTime None
        (set_startTime None
           (set_isRunning false (set_timeLeft (roundTime s) s1)))
  end.

End TimerState.
Export TimerState.

(* ================================================================== *)
(** ** The host: clock, interval timers, audio player, subscribers *)

Module Host.

(** A call the engine makes to the outside. *)
Inductive Event : Type :=
| AudioInitialize                      (* audioManager.initialize() *)
| PlaySoon                             (* audioManager.playSoon() *)
| PlayFinish                           (* audioManager.playFinish() *)
| SetInterval (handle : positive)      (* setInterval(..., RENDER_RATE) *)
| ClearInterval (handle : positive)    (* clearInterval(handle) *)
| Notify (callback : nat) (snapshot : TimerState).  (* callback(getState()) *)

Definition is_PlaySoon (e : Event) : bool :=
  match e with PlaySoon => true | _ => false end.
Definition is_PlayFinish (e : Event) : bool :=
  match e with PlayFinish => true | _ => false end.

(** How many events of a list satisfy [p]. *)
Definition count (p : Event -> bool) (l : list Event) : nat :=
  length (filter p l).
Arguments count : simpl never.

(** The host's own state: [clock n] is what the [n]-th call of
    [Date.now()] returns (any function: nothing is assumed of the wall
    clock), [reads] counts the calls made so far, [nextTimer] is the
    handle the next [setInterval] returns (a positive integer, hence
    truthy and never [null]). *)
Record HostState : Type := mkHost {
  clock : nat -> Z;
  reads : nat;
  nextTimer : positive
}.

Definition M (A : Type) : Type := HostState -> A * HostState * list Event.

Definition ret {A} (a : A) : M A := fun h => (a, h, []).
Definition bind {A B} (m : M A) (k : A -> M B) : M B :=
  fun h =>
    let '(a, h1, l1) := m h in
    let '(b, h2, l2) := k a h1 in
    (b, h2, l1 ++ l2).

Definition emit (l : list Event) : M unit := fun h => (tt, h, l).

(** [Date.now()] *)
Definition Date_now : M Z :=
  fun h => (clock h (reads h), mkHost (clock h) (S (reads h)) (nextTimer h), []).

(** [setInterval(() => this.tick(), RENDER_RATE)] *)
Definition setInterval : M positive :=
  fun h => (nextTimer h,
            mkHost (clock h) (reads h) (Pos.succ (nextTimer h)),
            [SetInterval (nextTimer h)]).

(** [clearInterval(handle)] *)
Definition clearInterval (handle : positive) : M unit :=
  emit [ClearInterval handle].

(** What a computation returns, the host it leaves, the calls it made. *)
Definition result {A} (r : A * HostState * list Event) : A := fst (fst r).
Definition host_after {A} (r : A * HostState * list Event) : HostState :=
  snd (fst r).
Definition effects {A} (r : A * HostState * list Event) : list Event := snd r.

(** The time the next [Date.now()] returns. *)
Definition next_now (h : HostState) : Z := clock h (reads h).

(** A clock that returns the elements of [l] in turn, then [0]. *)
Definition clock_of_list (l : list Z) : nat -> Z := fun n => nth n l 0.
Definition host_of_list (l : list Z) : HostState := mkHost (clock_of_list l) 0 1.

End Host.
Export Host.

Declare Scope timer_scope.
Notation "x <- m ;; k" := (bind m (fun x => k))
  (at level 61, m at next level, right associativity) : timer_scope.
Notation "m ;; k" := (bind m (fun _ => k))
  (at level 61, right associativity) : timer_scope.
Local Open Scope timer_scope.

(** JavaScript's coercions of a nullable number: truthiness, and the
    number used by arithmetic ([null] counts as [0]). *)
Definition truthy (o : option Z) : bool :=
  match o with
  | Some t => negb (t =? 0)
  | None => false
  end.

Definition toNumber (o : option Z) : Z :=
  match o with
  | Some t => t
  | None => 0
  end.

Definition isNull {A} (o : option A) : bool :=
  match o with
  | Some _ => false
  | None => true
  end.

(** [createPhaseTransition(state, newPhase)]: reads the clock, then builds
    the new record. *)
Definition createPhaseTransition (s : TimerState) (newPhase : Phase)
  : M TimerState :=
  now <- Date_now ;;
  ret (phaseTransitionAt now s newPhase).

(* ================================================================== *)
(** ** The timer engine: class [TimerLogic] *)

Module TimerLogic.

(** The fields of an instance.  [subscribers] is the JavaScript [Set] of
    callbacks, in insertion order and without duplicates; a callback is
    named by a number.  [audioManager] is the host's player and has no
    state of its own here. *)
Record TimerLogic : Type := mkLogic {
  state : TimerState;
  subscribers : list nat;
  intervalId : option positive;
  lastActionTime : Z;
  lastNotifyTime : Z
}.

Definition set_state (v : TimerState) (this : TimerLogic) : TimerLogic :=
  mkLogic v (subscribers this) (intervalId this)
          (lastActionTime this) (lastNotifyTime this).
Definition set_subscribers (v : list nat) (this : TimerLogic) : TimerLogic :=
  mkLogic (state this) v (intervalId this)
          (lastActionTime this) (lastNotifyTime this).
Definition set_intervalId (v : option positive) (this : TimerLogic)
  : TimerLogic :=
  mkLogic (state this) (subscribers this) v
          (lastActionTime this) (lastNotifyTime this).
Definition set_lastActionTime (v : Z) (this : TimerLogic) : TimerLogic :=
  mkLogic (state this) (subscribers this) (intervalId this)
          v (lastNotifyTime this).
Definition set_lastNotifyTime (v : Z) (this : TimerLogic) : TimerLogic :=
  mkLogic (state this) (subscribers this) (intervalId this)
          (lastActionTime this) v.

(** [this.state.f = v] *)
Definition upd_state (f : TimerState -> TimerState) (this : TimerLogic)
  : TimerLogic :=
  set_state (f (state this)) this.

(** The options object of the constructor and of [updateSettings]:
    [roundTime] is a number or is missing. *)
Record Options : Type := mkOptions { opt_roundTime : option Z }.

(** [new TimerLogic(initialSettings)]:
    [validateSettings(initialSettings.roundTime || 5 * 60 * 1000)] *)
Definition constructor (initialSettings : Options) : TimerLogic :=
  let v := validateSettings
             (if truthy (opt_roundTime initialSettings)
              then toNumber (opt_roundTime initialSettings)
              else 5 * 60 * 1000) in
  {| state := createInitialState (settings_roundTime v);
     subscribers := [];
     intervalId := None;
     lastActionTime := 0;
     lastNotifyTime := 0 |}.

(** [subscribe(callback)] and the function it returns *)
Definition subscribe (callback : nat) (this : TimerLogic) : TimerLogic :=
  if existsb (Nat.eqb callback) (subscribers this) then this
  else set_subscribers (subscribers this ++ [callback]) this.

Definition unsubscribe (callback : nat) (this : TimerLogic) : TimerLogic :=
  set_subscribers
    (filter (fun c => negb (Nat.eqb callback c)) (subscribers this)) this.

(** [getState()]: a copy of the record *)
Definition getState (this : TimerLogic) : TimerState := state this.

(** [notifySubscribers()] *)
Definition notifySubscribers (this : TimerLogic) : M unit :=
  emit (map (fun callback => Notify callback (getState this))
            (subscribers this)).

(** [updateSettings(newSettings)]:
    [validateSettings(newSettings.roundTime ?? this.state.roundTime)] *)
Definition updateSettings (newSettings : Options) (this : TimerLogic)
  : M TimerLogic :=
  let validated :=
    validateSettings
      (match opt_roundTime newSettings with
       | Some r => r
       | None => roundTime (state this)
       end) in
  let this := upd_state (set_roundTime (settings_roundTime validated)) this in
  let this :=
    match phase (state this) with
    | IDLE => upd_state (set_timeLeft (settings_roundTime validated)) this
    | WORK => this
    end in
  notifySubscribers this ;;
  ret this.

(** [startTicking()] *)
Definition startTicking (this : TimerLogic) : M TimerLogic :=
  match intervalId this with
  | Some old => clearInterval old
  | None => ret tt
  end ;;
  id <- setInterval ;;
  ret (set_intervalId (Some id) this).

(** [stopTicking()] *)
Definition stopTicking (this : TimerLogic) : M TimerLogic :=
  match intervalId this with
  | Some old =>
      clearInterval old ;;
      ret (set_intervalId None this)
  | None => ret this
  end.

(** [transitionToPhase(newPhase)] *)
Definition transitionToPhase (newPhase : Phase) (this : TimerLogic)
  : M TimerLogic :=
  s <- createPhaseTransition (state this) newPhase ;;
  ret (set_state s this).

(** [start()] *)
Definition start (this : TimerLogic) : M TimerLogic :=
  if isRunning (state this) then ret this
  else
    emit [AudioInitialize] ;;
    now <- Date_now ;;
    this <-
      match phase (state this) with
      | IDLE =>
          this <- transitionToPhase WORK this ;;
          ret (upd_state (set_startTime (Some now)) this)
      | WORK =>
          let currentPhaseDuration := getCurrentPhaseDuration (state this) in
          ret (upd_state
                 (set_startTime
                    (Some (now - (currentPhaseDuration
                                  - timeLeft (state this))))) this)
      end ;;
    let this := upd_state (set_isRunning true) this in
    let this :=
      if truthy (sessionStartTime (state this)) then this
      else upd_state (set_sessionStartTime (Some now)) this in
    this <- startTicking this ;;
    notifySubscribers this ;;
    ret this.

(** [pause()] *)
Definition pause (this : TimerLogic) : M TimerLogic :=
  if negb (isRunning (state this)) then ret this
  else
    let this := upd_state (set_isRunning false) this in
    this <- stopTicking this ;;
    notifySubscribers this ;;
    ret this.

(** [reset()] *)
Definition reset (this : TimerLogic) : M TimerLogic :=
  this <- stopTicking this ;;
  let this := set_state (createInitialState (roundTime (state this))) this in
  notifySubscribers this ;;
  ret this.

(** [toggle()] *)
Definition toggle (this : TimerLogic) : M TimerLogic :=
  now <- Date_now ;;
  if now - lastActionTime this <? 100 then ret this
  else
    let this := set_lastActionTime now this in
    if isRunning (state this) then pause this else start this.

(** [adjustCurrentTime(deltaMs)] *)
Definition adjustCurrentTime (deltaMs : Z) (this : TimerLogic)
  : M TimerLogic :=
  let currentPhaseDuration := getCurrentPhaseDuration (state this) in
  let newTimeLeft :=
    Z.min (Z.max 0 (timeLeft (state this) + deltaMs)) currentPhaseDuration in
  let this := upd_state (set_timeLeft newTimeLeft) this in
  this <-
    (if isRunning (state this) then
       now <- Date_now ;;
       ret (upd_state
              (set_startTime
                 (Some (now - (currentPhaseDuration - newTimeLeft)))) this)
     else ret this) ;;
  notifySubscribers this ;;
  ret this.

(** The window test of [checkAudioCues]:
    [timeLeft > SOON_TIME - RENDER_RATE * 2], over the rationals. *)
Definition afterSoonWindowStart (tl : Z) : bool :=
  negb (Qle_bool (inject_Z tl) (inject_Z SOON_TIME - RENDER_RATE * 2)).

(** [checkAudioCues()] *)
Definition checkAudioCues (this : TimerLogic) : M TimerLogic :=
  let s := state this in
  if Phase_eqb (phase s) WORK
     && (timeLeft s <=? SOON_TIME)
     && afterSoonWindowStart (timeLeft s)
     && negb (soonSoundPlayed s)
  then
    emit [PlaySoon] ;;
    ret (upd_state (set_soonSoundPlayed true) this)
  else ret this.

(** [handlePhaseTransition()] *)
Definition handlePhaseTransition (this : TimerLogic) : M TimerLogic :=
  let this := upd_state (set_timeLeft 0) this in
  match phase (state this) with
  | WORK =>
      emit [PlayFinish] ;;
      reset this
  | IDLE =>
      notifySubscribers this ;;
      ret this
  end.

(** [tick()] *)
Definition tick (this : TimerLogic) : M TimerLogic :=
  if negb (isRunning (state this))
     || negb (truthy (startTime (state this)))
     || isNull (intervalId this)
  then ret this
  else
    now <- Date_now ;;
    let currentPhaseDuration := getCurrentPhaseDuration (state this) in
    let elapsedTimeInPhase := now - toNumber (startTime (state this)) in
    let newTimeLeft := currentPhaseDuration - elapsedTimeInPhase in
    let this := upd_state (set_timeLeft newTimeLeft) this in
    if shouldTransitionPhase (state this) then handlePhaseTransition this
    else
      this <- checkAudioCues this ;;
      let shouldNotify :=
        (lastNotifyTime this =? 0) || (100 <=? now - lastNotifyTime this) in
      if shouldNotify then
        let this := set_lastNotifyTime now this in
        notifySubscribers this ;;
        ret this
      else ret this.

(** [destroy()] *)
Definition destroy (this : TimerLogic) : M TimerLogic :=
  this <- stopTicking this ;;
  let this := set_subscribers [] this in
  ret (upd_state (set_isRunning false) this).

End TimerLogic.
Export TimerLogic.

(* ================================================================== *)
(** ** Runs of the engine *)

(** A call from outside: the user interface, or the interval timer firing. *)
Inductive Op : Type :=
| OpStart
| OpPause
| OpReset
| OpToggle
| OpAdjustCurrentTime (deltaMs : Z)
| OpUpdateSettings (newSettings : Options)
| OpTick
| OpSubscribe (callback : nat)
| OpUnsubscribe (callback : nat)
| OpDestroy.

Definition step (o : Op) (this : TimerLogic) : M TimerLogic :=
  match o with
  | OpStart => start this
  | OpPause => pause this
  | OpReset => reset this
  | OpToggle => toggle this
  | OpAdjustCurrentTime d => adjustCurrentTime d this
  | OpUpdateSettings s => updateSettings s this
  | OpTick => tick this
  | OpSubscribe c => ret (subscribe c this)
  | OpUnsubscribe c => ret (unsubscribe c this)
  | OpDestroy => destroy this
  end.

Fixpoint run (ops : list Op) (this : TimerLogic) : M TimerLogic :=
  match ops with
  | [] => ret this
  | o :: ops' =>
      this <- step o this ;;
      run ops' this
  end.

(** [n] firings of the interval timer in a row. *)
Fixpoint ticks (n : nat) (this : TimerLogic) : M TimerLogic :=
  match n with
  | O => ret this
  | S n' =>
      this <- tick this ;;
      ticks n' this
  end.

(** The engines a program can hold: built by the constructor, then driven
    by any calls under any host. *)
Definition reachable (this : TimerLogic) : Prop :=
  exists (initialSettings : Options) (ops : list Op) (h : HostState),
    this = result (run ops (constructor initialSettings) h).

(** The invariant the specification gives for the idle phase. *)
Definition idle_invariant (s : TimerState) : Prop :=
  phase s = IDLE ->
  isRunning s = false /\ startTime s = None /\ sessionStartTime s = None
  /\ timeLeft s = roundTime s.

(** The part of it that every operation keeps. *)
Definition idle_stopped (s : TimerState) : Prop :=
  phase s = IDLE ->
  isRunning s = false /\ startTime s = None /\ sessionStartTime s = None
  /\ 0 <= timeLeft s <= roundTime s.

(** The configured duration is never below the minimum, and an idle
    engine is stopped, has no timestamps, and shows a time within the
    round. *)
Definition engine_inv (this : TimerLogic) : Prop :=
  MIN_ROUND_TIME <= roundTime (state this) /\ idle_stopped (state this).

(** The guard of [tick] lets the body run. *)
Definition tick_enabled (this : TimerLogic) : bool :=
  isRunning (state this)
  && truthy (startTime (state this))
  && negb (isNull (intervalId this)).

(** After these states no tick plays the soon cue: the latch is set, or
    the engine is not running. *)
Definition soon_quiet (this : TimerLogic) : Prop :=
  soonSoundPlayed (state this) = true \/ isRunning (state this) = false.

(** Engines used as concrete inputs. *)
Definition noOptions : Options := {| opt_roundTime := None |}.
Definition fresh : TimerLogic := subscribe 7 (constructor noOptions).

(** [fresh], started when the clock reads [t] (the phase transition reads
    the clock a second time and gets [t + 1]). *)
Definition started_at (t : Z) : TimerLogic :=
  result (start fresh (host_of_list [t; t + 1])).

(** [started_at 1000], paused after a tick at [61000]. *)
Definition paused : TimerLogic :=
  result (run [OpTick; OpPause] (started_at 1000) (host_of_list [61000])).

(* ================================================================== *)
(** ** Observations on an engine and on the calls it makes *)

Definition is_Notify (e : Event) : bool :=
  match e with Notify _ _ => true | _ => false end.
Definition is_SetInterval (e : Event) : bool :=
  match e with SetInterval _ => true | _ => false end.
Definition is_ClearInterval (e : Event) : bool :=
  match e with ClearInterval _ => true | _ => false end.

(** The number of interval handles the instance holds: one or none. *)
Definition held (this : TimerLogic) : nat :=
  if isNull (intervalId this) then 0%nat else 1%nat.

(** What [notifySubscribers()] sends when the instance is [this]. *)
Definition notifications_of (this : TimerLogic) : list Event :=
  map (fun callback => Notify callback (state this)) (subscribers this).

(** A running engine holds a handle and a start timestamp; a stopped one
    holds no handle. *)
Definition running_inv (this : TimerLogic) : Prop :=
  isRunning (state this) = negb (isNull (intervalId this))
  /\ (isRunning (state this) = true -> isNull (startTime (state this)) = false).

(* ================================================================== *)
(** ** The hook: [useTimer.js]

    The actions, the status text and the formatters that the hook hands
    to the components.  [timerState] is the snapshot the hook keeps from
    the last notification.  The storage module and the [Date] object are
    the host's: a write to the storage is a [HookEvent], and a date is
    what its [getHours()] and [getMinutes()] return. *)

Module UseTimer.
Import String Ascii.

(** A call the hook makes to the outside: one of the engine's, or
    [saveToLocalStorage(key, value)]. *)
Inductive HookEvent : Type :=
| FromEngine (e : Event)
| SaveToLocalStorage (key : string) (value : Z).

Definition is_Save (e : HookEvent) : bool :=
  match e with SaveToLocalStorage _ _ => true | FromEngine _ => false end.

(** [new TimerLogic({ roundTime: initialRoundTime })], where
    [initialRoundTime] is what [loadFromLocalStorage("roundTime", ...)]
    returned. *)
Definition useTimer_logic (initialRoundTime : Z) : TimerLogic :=
  constructor {| opt_roundTime := Some initialRoundTime |}.

(** [actions.updateRoundTime(newTime)] *)
Definition updateRoundTime (newTime : Z) (this : TimerLogic) (h : HostState)
  : TimerLogic * HostState * list HookEvent :=
  let validated := Z.max (30 * SECOND) newTime in
  let '(this', h', calls) :=
    updateSettings {| opt_roundTime := Some validated |} this h in
  (this', h',
   (map FromEngine calls
    ++ [SaveToLocalStorage "roundTime"%string validated])%list).


(** [actions.changeCurrentTime(deltaSeconds)] *)
Definition changeCurrentTime (deltaSeconds : Z) (this : TimerLogic)
  : M TimerLogic :=
  adjustCurrentTime (deltaSeconds * SECOND) this.

(** [computed.isIdle], [computed.isEndingSoon], [computed.getStatusText()] *)
Definition isIdle (timerState : TimerState) : bool :=
  Phase_eqb (phase timerState) IDLE.

Definition isEndingSoon (timerState : TimerState) : bool :=
  Phase_eqb (phase timerState) WORK && (timeLeft timerState <=? SOON_TIME).

Definition getStatusText (timerState : TimerState) : string :=
  if isRunning timerState then "Running"%string
  else if isIdle timerState then "Stopped"%string
  else "Paused"%string.

(** [n.toString()] of an integer, and [s.padStart(targetLength, c)] for a
    pad string of one character. *)
Definition toString (n : Z) : string :=
  DecimalString.NilZero.string_of_int (Z.to_int n).

Fixpoint repeat_char (c : ascii) (n : nat) : string :=
  match n with
  | O => EmptyString
  | S n' => String c (repeat_char c n')
  end.

Definition padStart (targetLength : nat) (c : ascii) (s : string) : string :=
  (repeat_char c (targetLength - String.length s) ++ s)%string.

(** [Math.ceil(time / 1000)] on whole milliseconds *)
Definition ceil_seconds (time : Z) : Z := - ((- time) / 1000).

(** [formatters.formatTime(time)] *)
Definition formatTime (time : Z) : string :=
  let totalSeconds := Z.max 0 (ceil_seconds time) in
  let minutes := padStart 2 "0"%char (toString (totalSeconds / 60)) in
  let seconds := padStart 2 "0"%char (toString (totalSeconds mod 60)) in
  (minutes ++ ":" ++ seconds)%string.

(** A [Date], as far as [formatCurrentTime] reads it. *)
Record Date : Type := mkDate { getHours : Z; getMinutes : Z }.

(** [formatters.formatCurrentTime(date)] *)
Definition formatCurrentTime (date : option Date) : string :=
  match date with
  | None => ""%string
  | Some d =>
      let hours := getHours d in
      let minutes := getMinutes d in
      let ampm := if 12 <=? hours then "pm"%string else "am"%string in
      let hours := if hours mod 12 =? 0 then 12 else hours mod 12 in
      let minutes :=
        if minutes <? 10 then ("0" ++ toString minutes)%string
        else toString minutes in
      (toString hours ++ ":" ++ padStart 2 "0"%char minutes ++ " " ++ ampm)%string
  end.

(** The decimal digit [d] as a character. *)
Definition digit (d : Z) : ascii := ascii_of_nat (48 + Z.to_nat d).

(** The two decimal digits of [n]. *)
Definition two_digits (n : Z) : string :=
  String (digit (n / 10)) (String (digit (n mod 10)) EmptyString).

(** The hours and minutes a [Date] can return, and the text shown for
    each; [distinct] tests that no text of a list occurs twice. *)
Definition clock_faces : list (Z * Z) :=
  flat_map (fun hh => map (fun mm => (Z.of_nat hh, Z.of_nat mm)) (seq 0 60))
           (seq 0 24).

Definition face_text (f : Z * Z) : string :=
  formatCurrentTime (Some (mkDate (fst f) (snd f))).

Fixpoint distinct (l : list string) : bool :=
  match l with
  | [] => true
  | s :: l' => negb (existsb (String.eqb s) l') && distinct l'
  end.

End UseTimer.

(* ================================================================== *)
(** ** Laws of the monad *)

Lemma result_bind {A B} (m : M A) (k : A -> M B) (h : HostState) :
  result (bind m k h) = result (k (result (m h)) (host_after (m h))).
Proof.
  unfold bind, result, host_after.
  destruct (m h) as [[a h1] l1]; cbn.
  destruct (k a h1) as [[b h2] l2]; reflexivity.
Qed.

Lemma host_after_bind {A B} (m : M A) (k : A -> M B) (h : HostState) :
  host_after (bind m k h) = host_after (k (result (m h)) (host_after (m h))).
Proof.
  unfold bind, result, host_after.
  destruct (m h) as [[a h1] l1]; cbn.
  destruct (k a h1) as [[b h2] l2]; reflexivity.
Qed.

Lemma effects_bind {A B} (m : M A) (k : A -> M B) (h : HostState) :
  effects (bind m k h)
  = effects (m h) ++ effects (k (result (m h)) (host_after (m h))).
Proof.
  unfold bind, result, host_after, effects.
  destruct (m h) as [[a h1] l1]; cbn.
  destruct (k a h1) as [[b h2] l2]; reflexivity.
Qed.

Lemma count_app (p : Event -> bool) (l1 l2 : list Event) :
  count p (l1 ++ l2) = (count p l1 + count p l2)%nat.
Proof.
  unfold count. rewrite filter_app. apply length_app.
Qed.

Lemma count_cons (p : Event -> bool) (e : Event) (l : list Event) :
  count p (e :: l) = ((if p e then 1 else 0) + count p l)%nat.
Proof.
  unfold count; cbn. destruct (p e); reflexivity.
Qed.

Lemma count_notifications (p : Event -> bool) (s : TimerState) (subs : list nat) :
  (forall c, p (Notify c s) = false) ->
  count p (map (fun callback => Notify callback s) subs) = 0%nat.
Proof.
  intros Hp. unfold count.
  induction subs as [| c subs IH]; cbn; [reflexivity |].
  rewrite Hp. exact IH.
Qed.

(** Unfolds a method down to the host's primitives. *)
Ltac unfold_engine :=
  unfold step, toggle, tick, start, pause, handlePhaseTransition, reset,
    destroy, adjustCurrentTime, updateSettings, checkAudioCues,
    transitionToPhase, createPhaseTransition, startTicking, stopTicking,
    notifySubscribers, clearInterval, setInterval, getState, Date_now, emit,
    bind, ret.

(** Splits on the tests a method makes, one after the other. *)
Ltac split_tests :=
  repeat match goal with
    | |- context [if ?b then _ else _] => destruct b eqn:?; cbn
    | |- context [match ?x with Some _ => _ | None => _ end] =>
        destruct x eqn:?; cbn
    | |- context [match ?x with IDLE => _ | WORK => _ end] =>
        destruct x eqn:?; cbn
    end.

Ltac open_engine this h :=
  destruct this as [[run tl ph st sst rt latch] subs iid lat lnt];
  destruct h as [clk rd nt].

(* ================================================================== *)
(** ** The state module *)

(** C6.  For every [d], [validateSettings(d).roundTime] is [max(d, 30000)]:
    [30000] when [d < 30000] and [d] when [d >= 30000].  The function is
    total: it returns a settings object on every input. *)
Theorem validateSettings_clamps (d : Z) :
  settings_roundTime (validateSettings d) = Z.max d 30000
  /\ settings_roundTime (validateSettings d)
     = (if d <? 30000 then 30000 else d).
Proof.
  unfold validateSettings, MIN_ROUND_TIME; cbn.
  destruct (Z.ltb_spec d 30000); lia.
Qed.

(* ================================================================== *)
(** ** The constructor *)

(** C10.  The constructor called with no [roundTime], or with [roundTime]
    equal to [0], gives an initial state whose [roundTime] is the default
    300000 ms: [0] is falsy and is replaced by the default, not clamped up
    to 30000.  Any other supplied [r] gives [max(r, 30000)].  The state
    built is the initial idle state for that duration. *)
Theorem constructor_roundTime (r : option Z) :
  let rt := match r with
            | None => 300000
            | Some 0 => 300000
            | Some r' => Z.max r' 30000
            end in
  roundTime (state (constructor {| opt_roundTime := r |})) = rt
  /\ state (constructor {| opt_roundTime := r |}) = createInitialState rt.
Proof.
  unfold constructor, validateSettings, MIN_ROUND_TIME; cbn.
  destruct r as [[| p | p] |]; cbn; split; try reflexivity;
    try (f_equal; lia); lia.
Qed.

(* ================================================================== *)
(** ** [start] *)

(** C9.  While the engine is running, [start()] returns at once: the
    instance (state included, field by field), the host and the clock are
    as before, and no call to the outside is made, so no subscriber is
    notified. *)
Theorem start_while_running (this : TimerLogic) (h : HostState) :
  isRunning (state this) = true ->
  start this h = (this, h, []).
Proof.
  intros Hrun. unfold start. rewrite Hrun. reflexivity.
Qed.

Lemma start_while_running_witness :
  isRunning (state (started_at 1000)) = true
  /\ start (started_at 1000) (host_of_list [5000])
     = (started_at 1000, host_of_list [5000], []).
Proof.
  split; [reflexivity |].
  apply (start_while_running (started_at 1000) (host_of_list [5000])).
  reflexivity.
Defined.

(** C7.  [start()] on an idle, stopped engine gives phase Work, running,
    [timeLeft = roundTime], and [startTime] equal to the timestamp that
    [start] itself reads; the phase transition then reads the clock once
    more (two reads in all) and its timestamp is overwritten.
    [sessionStartTime] becomes the timestamp of [start] when it was
    [null] before. *)
Theorem start_from_idle (this : TimerLogic) (h : HostState) :
  phase (state this) = IDLE ->
  isRunning (state this) = false ->
  let r := start this h in
  let s := state (result r) in
  phase s = WORK
  /\ isRunning s = true
  /\ timeLeft s = roundTime (state this)
  /\ startTime s = Some (clock h (reads h))
  /\ startTime (result (createPhaseTransition (state this) WORK
                          (host_after (Date_now h))))
     = Some (clock h (S (reads h)))
  /\ reads (host_after r) = S (S (reads h))
  /\ (sessionStartTime (state this) = None ->
      sessionStartTime s = Some (clock h (reads h))).
Proof.
  intros Hph Hrun.
  open_engine this h. cbn in Hph, Hrun. subst ph run.
  unfold_engine. cbn.
  destruct (truthy sst) eqn:Hsst; destruct iid; cbn;
    repeat split; intros ->; discriminate.
Qed.

Lemma start_from_idle_witness :
  phase (state fresh) = IDLE /\ isRunning (state fresh) = false /\
  let r := start fresh (host_of_list [1000; 1001]) in
  let s := state (result r) in
  phase s = WORK
  /\ isRunning s = true
  /\ timeLeft s = 300000
  /\ startTime s = Some 1000
  /\ startTime (result (createPhaseTransition (state fresh) WORK
                          (host_after (Date_now (host_of_list [1000; 1001])))))
     = Some 1001
  /\ reads (host_after r) = 2%nat
  /\ (sessionStartTime (state fresh) = None ->
      sessionStartTime s = Some 1000).
Proof.
  split; [reflexivity |]. split; [reflexivity |].
  apply (start_from_idle fresh (host_of_list [1000; 1001])); reflexivity.
Defined.

(** C3.  On an engine paused in the Work phase with [timeLeft = t],
    [start()] at any instant [now] (whatever the clock says, so for any
    length of the pause) leaves [timeLeft = t] and sets
    [startTime = now - (phaseDuration - t)]. *)
Theorem resume_keeps_timeLeft (this : TimerLogic) (h : HostState) (t : Z) :
  isRunning (state this) = false ->
  phase (state this) = WORK ->
  timeLeft (state this) = t ->
  let s := state (result (start this h)) in
  timeLeft s = t
  /\ startTime s
     = Some (next_now h - (getCurrentPhaseDuration (state this) - t))
  /\ isRunning s = true.
Proof.
  intros Hrun Hph Htl.
  open_engine this h. cbn in Hrun, Hph, Htl. subst run ph tl.
  unfold_engine. cbn.
  destruct (truthy sst); destruct iid; cbn; repeat split.
Qed.

Lemma resume_keeps_timeLeft_witness :
  isRunning (state paused) = false /\ phase (state paused) = WORK /\
  timeLeft (state paused) = 240000 /\
  let s := state (result (start paused (host_of_list [99999]))) in
  timeLeft s = 240000
  /\ startTime s = Some (99999 - (300000 - 240000))
  /\ isRunning s = true.
Proof.
  repeat (split; [reflexivity |]).
  apply (resume_keeps_timeLeft paused (host_of_list [99999]) 240000);
    reflexivity.
Defined.

(** [pause()] on a running engine stops it and keeps the phase and the
    remaining time; [start()] after it, whenever it comes, resumes with
    that remaining time. *)
Lemma pause_keeps_timeLeft (this : TimerLogic) (h : HostState) :
  isRunning (state this) = true ->
  let s := state (result (pause this h)) in
  isRunning s = false
  /\ phase s = phase (state this)
  /\ timeLeft s = timeLeft (state this).
Proof.
  intros Hrun. open_engine this h. cbn in Hrun. subst run.
  unfold_engine; unfold result; cbn. destruct iid; cbn; repeat split.
Qed.

Lemma pause_then_start (this : TimerLogic) (h h' : HostState) :
  isRunning (state this) = true ->
  phase (state this) = WORK ->
  timeLeft (state (result (start (result (pause this h)) h')))
  = timeLeft (state this).
Proof.
  intros Hrun Hph.
  open_engine this h. cbn in Hrun, Hph. subst run ph.
  destruct h' as [clk' rd' nt'].
  unfold_engine; unfold result; cbn.
  destruct iid; cbn; destruct (truthy sst); cbn; reflexivity.
Qed.

(* ================================================================== *)
(** ** What every reachable engine satisfies *)

Ltac solve_inv :=
  unfold engine_inv, idle_stopped, idle_invariant, MIN_ROUND_TIME,
    validateSettings, createInitialState, phaseTransitionAt,
    getCurrentPhaseDuration, shouldTransitionPhase in *;
  cbn in *;
  intuition (subst; cbn in *; try discriminate; try congruence; try lia).

Lemma constructor_inv (initialSettings : Options) :
  engine_inv (constructor initialSettings).
Proof.
  destruct initialSettings as [[r |]]; unfold constructor; cbn;
    [destruct (r =? 0); cbn |]; solve_inv.
Qed.

Lemma step_inv (o : Op) (this : TimerLogic) (h : HostState) :
  engine_inv this -> engine_inv (result (step o this h)).
Proof.
  intros Hinv. open_engine this h.
  destruct o as [| | | | d | [r] | | c | c |];
    unfold_engine; unfold subscribe, unsubscribe, result; cbn;
    split_tests; solve_inv.
Qed.

Lemma run_inv (ops : list Op) :
  forall (this : TimerLogic) (h : HostState),
    engine_inv this -> engine_inv (result (run ops this h)).
Proof.
  induction ops as [| o ops IH]; intros this h Hinv; cbn [run].
  - exact Hinv.
  - rewrite result_bind. apply IH, step_inv, Hinv.
Qed.

Lemma reachable_inv (this : TimerLogic) :
  reachable this -> engine_inv this.
Proof.
  intros (opts & ops & h & ->). apply run_inv, constructor_inv.
Qed.

(** Every operation but [adjustCurrentTime] keeps the whole idle
    invariant of the specification. *)
Lemma step_idle_invariant (o : Op) (this : TimerLogic) (h : HostState) :
  (forall d, o <> OpAdjustCurrentTime d) ->
  idle_invariant (state this) ->
  idle_invariant (state (result (step o this h))).
Proof.
  intros Hop Hinv. open_engine this h.
  destruct o as [| | | | d | [r] | | c | c |];
    try (exfalso; apply (Hop d); reflexivity);
    unfold_engine; unfold subscribe, unsubscribe, result; cbn;
    split_tests; solve_inv.
Qed.

(* ================================================================== *)
(** ** [adjustCurrentTime] *)

Lemma adjustCurrentTime_timeLeft (d : Z) (this : TimerLogic) (h : HostState) :
  timeLeft (state (result (adjustCurrentTime d this h)))
  = Z.min (Z.max 0 (timeLeft (state this) + d)) (roundTime (state this))
  /\ roundTime (state (result (adjustCurrentTime d this h)))
     = roundTime (state this).
Proof.
  open_engine this h. unfold_engine; unfold result; cbn.
  destruct run; cbn; split; reflexivity.
Qed.

(** C8.  On every reachable engine and for every [delta], positive,
    negative or of any size, [timeLeft] after [adjustCurrentTime(delta)]
    lies in [[0, phaseDuration]], that is in [[0, roundTime]]. *)
Theorem adjustCurrentTime_in_range
    (this : TimerLogic) (h : HostState) (delta : Z) :
  reachable this ->
  let s := state (result (adjustCurrentTime delta this h)) in
  0 <= timeLeft s <= getCurrentPhaseDuration s
  /\ getCurrentPhaseDuration s = roundTime (state this).
Proof.
  intros Hreach. cbn zeta.
  destruct (reachable_inv this Hreach) as [Hrt _].
  destruct (adjustCurrentTime_timeLeft delta this h) as [Htl Hrt'].
  unfold getCurrentPhaseDuration, MIN_ROUND_TIME in *.
  rewrite Htl, Hrt'. lia.
Qed.

Lemma reachable_started : reachable (started_at 1000).
Proof.
  exists noOptions, [OpSubscribe 7%nat; OpStart], (host_of_list [1000; 1001]).
  reflexivity.
Qed.

Lemma adjustCurrentTime_in_range_witness :
  reachable (started_at 1000)
  /\ let s := state (result (adjustCurrentTime (-999999999) (started_at 1000)
                               (host_of_list [5000]))) in
     0 <= timeLeft s <= getCurrentPhaseDuration s
     /\ getCurrentPhaseDuration s = roundTime (state (started_at 1000)).
Proof.
  split; [exact reachable_started |].
  apply (adjustCurrentTime_in_range (started_at 1000) (host_of_list [5000])
           (-999999999)).
  exact reachable_started.
Defined.

(** C1.  The idle invariant of the specification ([phase = Idle] implies
    stopped, no timestamps and [timeLeft = roundTime]) does not hold in
    every reachable state: on a newly built engine, which is idle,
    [adjustCurrentTime(-1000)] leaves the phase Idle with
    [timeLeft = 299000] while [roundTime = 300000]. *)
Theorem adjustCurrentTime_breaks_idle_invariant :
  let before := constructor noOptions in
  let after := result (run [OpAdjustCurrentTime (-1000)] before
                           (host_of_list [])) in
  idle_invariant (state before)
  /\ reachable after
  /\ phase (state after) = IDLE
  /\ timeLeft (state after) = 299000
  /\ roundTime (state after) = 300000
  /\ ~ idle_invariant (state after).
Proof.
  cbn zeta. split; [| split; [| split; [| split; [| split]]]];
    try reflexivity.
  - intros _; repeat split.
  - exists noOptions, [OpAdjustCurrentTime (-1000)], (host_of_list []).
    reflexivity.
  - intros Hinv. destruct (Hinv eq_refl) as (_ & _ & _ & Htl).
    discriminate Htl.
Qed.

(* ================================================================== *)
(** ** [tick] *)

Lemma tick_enabled_true (this : TimerLogic) :
  tick_enabled this = true <->
  isRunning (state this) = true
  /\ (exists s, startTime (state this) = Some s /\ s <> 0)
  /\ (exists id, intervalId this = Some id).
Proof.
  unfold tick_enabled, truthy, isNull.
  destruct (isRunning (state this)), (startTime (state this)) as [s |],
    (intervalId this) as [id |]; cbn;
    try destruct (Z.eqb_spec s 0); cbn; split;
    try discriminate;
    try (intros (H1 & (s' & H2 & H3) & (id' & H4)); congruence).
  all: intros _; repeat split; eauto.
Qed.

(** A tick whose guard fails does nothing at all. *)
Lemma tick_disabled (this : TimerLogic) (h : HostState) :
  tick_enabled this = false -> tick this h = (this, h, []).
Proof.
  unfold tick_enabled, tick. intros Hg.
  replace (negb (isRunning (state this))
           || negb (truthy (startTime (state this)))
           || isNull (intervalId this)) with true; [reflexivity |].
  destruct (isRunning (state this)), (truthy (startTime (state this))),
    (intervalId this); cbn in *; congruence.
Qed.

(** C2.  On a tick with [isRunning] true, [startTime] a timestamp other
    than [0] (the guard tests truthiness, so a [startTime] of [0] is left
    aside here) and a registered loop handle, [timeLeft] is recomputed as
    [phaseDuration - (now - startTime)] from the clock read at that tick:
    whatever [timeLeft] was before makes no difference to the tick; the
    recomputed value is the stored [timeLeft] after the tick when it is
    positive, and when it is [<= 0] the state holding it goes to the
    phase-transition handling.  A tick with [isRunning] false, [startTime]
    null or no handle leaves the instance and the host unchanged and
    makes no call. *)
Theorem tick_recomputes_timeLeft (this : TimerLogic) (h : HostState) :
  (forall (s : Z) (id : positive),
      isRunning (state this) = true ->
      startTime (state this) = Some s ->
      s <> 0 ->
      intervalId this = Some id ->
      let tl := getCurrentPhaseDuration (state this) - (next_now h - s) in
      (0 < tl -> timeLeft (state (result (tick this h))) = tl)
      /\ (tl <= 0 ->
          tick this h
          = handlePhaseTransition (upd_state (set_timeLeft tl) this)
                                  (host_after (Date_now h)))
      /\ (forall previous : Z,
            tick (upd_state (set_timeLeft previous) this) h = tick this h))
  /\ (isRunning (state this) = false
      \/ startTime (state this) = None
      \/ intervalId this = None ->
      tick this h = (this, h, [])).
Proof.
  split.
  - intros s id Hrun Hst Hs Hid.
    open_engine this h. cbn in Hrun, Hst, Hid. subst run st iid.
    unfold tick, next_now, getCurrentPhaseDuration, shouldTransitionPhase,
      upd_state, host_after.
    cbn. apply Z.eqb_neq in Hs. rewrite Hs. cbn.
    split; [| split].
    + intros Hpos.
      destruct (Z.leb_spec (rt - (clk rd - s)) 0) as [Hle | _]; [lia |].
      unfold_engine; unfold result; cbn. split_tests; reflexivity.
    + intros Hle.
      destruct (Z.leb_spec (rt - (clk rd - s)) 0) as [_ | Hgt]; [| lia].
      destruct (handlePhaseTransition _ _) as [[b h2] l2]; reflexivity.
    + intros previous. unfold set_timeLeft, set_state; cbn. reflexivity.
  - intros Hg. apply tick_disabled. unfold tick_enabled.
    destruct Hg as [-> | [-> | ->]]; cbn;
      rewrite ?andb_false_r; reflexivity.
Qed.

Lemma tick_recomputes_timeLeft_witness :
  (isRunning (state (started_at 1000)) = true
   /\ startTime (state (started_at 1000)) = Some 1000
   /\ intervalId (started_at 1000) = Some 1%positive
   /\ timeLeft (state (result (tick (started_at 1000) (host_of_list [61000]))))
      = 240000)
  /\ (isRunning (state paused) = false
      /\ tick paused (host_of_list [70000])
         = (paused, host_of_list [70000], [])).
Proof.
  split.
  - destruct (tick_recomputes_timeLeft (started_at 1000) (host_of_list [61000]))
      as [Hon _].
    destruct (Hon 1000 1%positive eq_refl eq_refl ltac:(discriminate) eq_refl)
      as [Hpos _].
    repeat (split; [reflexivity |]).
    apply Hpos. reflexivity.
  - destruct (tick_recomputes_timeLeft paused (host_of_list [70000]))
      as [_ Hoff].
    split; [reflexivity |].
    apply Hoff. left. reflexivity.
Defined.

(** C2, as stated, fails twice.  With [startTime = 0], which is not
    [null], the tick does nothing; and when the recomputed value is
    [<= 0] in the Work phase, the [timeLeft] stored after the tick is
    [roundTime]. *)
Lemma tick_timeLeft_not_always_recomputed :
  (let this := started_at 0 in
   let h := host_of_list [1000] in
   isRunning (state this) = true
   /\ startTime (state this) = Some 0
   /\ intervalId this = Some 1%positive
   /\ tick this h = (this, h, [])
   /\ timeLeft (state (result (tick this h)))
      <> getCurrentPhaseDuration (state this) - (next_now h - 0))
  /\ (let this := started_at 1000 in
      let h := host_of_list [301005] in
      isRunning (state this) = true
      /\ startTime (state this) = Some 1000
      /\ intervalId this = Some 1%positive
      /\ getCurrentPhaseDuration (state this) - (next_now h - 1000) = -5
      /\ timeLeft (state (result (tick this h))) = 300000).
Proof.
  split; cbn zeta; repeat (split; [reflexivity |]).
  - discriminate.
  - reflexivity.
Qed.

(** C4.  A tick that fires on an engine running in the Work phase (its
    guard passes: [startTime] is a timestamp other than [0] and a loop
    handle is registered) and recomputes a [timeLeft <= 0] plays the
    finish cue exactly once, clears the interval and forgets its handle,
    and replaces the state by the initial idle state for the same
    [roundTime]; the subscribers are then notified of that state.
    Afterwards [phase = Idle] and [timeLeft = roundTime]. *)
Theorem tick_finishes_work
    (this : TimerLogic) (h : HostState) (s : Z) (id : positive) :
  isRunning (state this) = true ->
  phase (state this) = WORK ->
  startTime (state this) = Some s ->
  s <> 0 ->
  intervalId this = Some id ->
  getCurrentPhaseDuration (state this) - (next_now h - s) <= 0 ->
  let r := tick this h in
  effects r
  = PlayFinish :: ClearInterval id
      :: map (fun callback =>
                Notify callback (createInitialState (roundTime (state this))))
             (subscribers this)
  /\ count is_PlayFinish (effects r) = 1%nat
  /\ intervalId (result r) = None
  /\ state (result r) = createInitialState (roundTime (state this))
  /\ phase (state (result r)) = IDLE
  /\ timeLeft (state (result r)) = roundTime (state (result r))
  /\ roundTime (state (result r)) = roundTime (state this).
Proof.
  intros Hrun Hph Hst Hs Hid Hle.
  open_engine this h. cbn in Hrun, Hph, Hst, Hid. subst run ph st iid.
  unfold getCurrentPhaseDuration, next_now in Hle. cbn in Hle.
  apply Z.eqb_neq in Hs.
  assert (Heff :
    tick {| state := mkState true tl WORK (Some s) sst rt latch;
            subscribers := subs; intervalId := Some id;
            lastActionTime := lat; lastNotifyTime := lnt |}
         (mkHost clk rd nt)
    = ({| state := createInitialState rt;
          subscribers := subs; intervalId := None;
          lastActionTime := lat; lastNotifyTime := lnt |},
       mkHost clk (S rd) nt,
       PlayFinish :: ClearInterval id
         :: map (fun callback => Notify callback (createInitialState rt))
                subs)).
  { unfold_engine; unfold shouldTransitionPhase, getCurrentPhaseDuration; cbn.
    rewrite Hs; cbn.
    destruct (Z.leb_spec (rt - (clk rd - s)) 0) as [_ | Hgt]; [| lia].
    rewrite app_nil_r. reflexivity. }
  cbn zeta. rewrite Heff. unfold effects, result; cbn.
  repeat split.
  rewrite !count_cons, count_notifications by (intros; reflexivity).
  reflexivity.
Qed.

Lemma tick_finishes_work_witness :
  let this := started_at 1000 in
  let h := host_of_list [301005] in
  isRunning (state this) = true
  /\ phase (state this) = WORK
  /\ startTime (state this) = Some 1000
  /\ intervalId this = Some 1%positive
  /\ getCurrentPhaseDuration (state this) - (next_now h - 1000) <= 0
  /\ count is_PlayFinish (effects (tick this h)) = 1%nat
  /\ intervalId (result (tick this h)) = None
  /\ phase (state (result (tick this h))) = IDLE
  /\ timeLeft (state (result (tick this h))) = 300000.
Proof.
  cbn zeta.
  repeat (split; [reflexivity |]).
  split; [discriminate |].
  destruct (tick_finishes_work (started_at 1000) (host_of_list [301005])
              1000 1%positive eq_refl eq_refl eq_refl ltac:(discriminate)
              eq_refl ltac:(discriminate))
    as (_ & Hcount & Hid & Hstate & Hph & _ & _).
  split; [exact Hcount | split; [exact Hid | split; [exact Hph |]]].
  rewrite Hstate. reflexivity.
Defined.

(* ================================================================== *)
(** ** The soon cue *)

(** On whole milliseconds the window test [timeLeft > 10000 - 2 * 1000/30]
    is [timeLeft >= 9934]. *)
Lemma afterSoonWindowStart_spec (tl : Z) :
  afterSoonWindowStart tl = (9934 <=? tl).
Proof.
  unfold afterSoonWindowStart, Qle_bool, SOON_TIME, RENDER_RATE. cbn.
  destruct (Z.leb_spec 9934 tl), (Z.leb_spec (tl * 30) 298000); cbn;
    try reflexivity; lia.
Qed.

Ltac count_events :=
  cbn;
  rewrite ?app_nil_r;
  rewrite ?count_app, ?count_cons, ?count_notifications
    by (intros; reflexivity);
  cbn.

(** Closes a branch taken on a test that cannot have that outcome. *)
Ltac absurd_test :=
  try match goal with
    | H : _ && false = true |- _ => rewrite andb_false_r in H; discriminate
    | H : _ || true = false |- _ => rewrite orb_true_r in H; discriminate
    end.

Lemma count_nil (p : Event -> bool) : count p [] = 0%nat.
Proof. reflexivity. Qed.

(** Once the latch is set or the engine has stopped, a tick plays no soon
    cue and leaves the engine in such a state. *)
Lemma tick_quiet (this : TimerLogic) (h : HostState) :
  soon_quiet this ->
  count is_PlaySoon (effects (tick this h)) = 0%nat
  /\ soon_quiet (result (tick this h)).
Proof.
  unfold soon_quiet. intros Hq. open_engine this h. cbn in Hq.
  unfold_engine; unfold effects, result, shouldTransitionPhase; cbn.
  destruct run, latch, iid as [id |], (truthy st), ph; cbn;
    try (destruct Hq; discriminate);
    split_tests; absurd_test; count_events; rewrite ?count_nil; auto.
Qed.

(** A tick plays the soon cue at most once, and sets the latch when it
    does. *)
Lemma tick_soon_le (this : TimerLogic) (h : HostState) :
  count is_PlaySoon (effects (tick this h)) = 0%nat
  \/ (count is_PlaySoon (effects (tick this h)) = 1%nat
      /\ soon_quiet (result (tick this h))).
Proof.
  unfold soon_quiet. open_engine this h.
  unfold_engine; unfold effects, result, shouldTransitionPhase; cbn.
  destruct run, latch, iid as [id |], (truthy st), ph; cbn;
    split_tests; absurd_test; count_events; rewrite ?count_nil; auto.
Qed.

Lemma ticks_quiet (n : nat) :
  forall (this : TimerLogic) (h : HostState),
    soon_quiet this ->
    count is_PlaySoon (effects (ticks n this h)) = 0%nat.
Proof.
  induction n as [| n IH]; intros this h Hq; cbn [ticks].
  - reflexivity.
  - rewrite effects_bind, count_app.
    destruct (tick_quiet this h Hq) as [-> Hq'].
    rewrite (IH _ _ Hq'). reflexivity.
Qed.

(** Whatever the engine and the clock, a run of ticks plays the soon cue
    at most once. *)
Lemma ticks_soon_at_most_once (n : nat) :
  forall (this : TimerLogic) (h : HostState),
    (count is_PlaySoon (effects (ticks n this h)) <= 1)%nat.
Proof.
  induction n as [| n IH]; intros this h; cbn [ticks].
  - cbn. rewrite count_nil. lia.
  - rewrite effects_bind, count_app.
    destruct (tick_soon_le this h) as [-> | [-> Hq]].
    + apply IH.
    + rewrite (ticks_quiet n _ _ Hq). lia.
Qed.

Lemma ticks_add (a b : nat) :
  forall (this : TimerLogic) (h : HostState),
    let r := ticks a this h in
    effects (ticks (a + b) this h)
    = effects r ++ effects (ticks b (result r) (host_after r))
    /\ result (ticks (a + b) this h) = result (ticks b (result r) (host_after r))
    /\ host_after (ticks (a + b) this h)
       = host_after (ticks b (result r) (host_after r)).
Proof.
  induction a as [| a IH]; intros this h; cbn [ticks Nat.add]; cbn zeta.
  - repeat split.
  - rewrite !effects_bind, !result_bind, !host_after_bind.
    destruct (IH (result (tick this h)) (host_after (tick this h)))
      as (He & Hr & Hh).
    cbn zeta in He, Hr, Hh. rewrite He, Hr, Hh, app_assoc.
    repeat split.
Qed.

(** One tick of an engine running in the Work phase with the latch
    unset. *)
Lemma tick_work_step
    (this : TimerLogic) (h : HostState) (s : Z) (id : positive) :
  isRunning (state this) = true ->
  phase (state this) = WORK ->
  startTime (state this) = Some s ->
  s <> 0 ->
  intervalId this = Some id ->
  soonSoundPlayed (state this) = false ->
  let tl := roundTime (state this) - (next_now h - s) in
  let r := tick this h in
  count is_PlaySoon (effects r)
  = (if (tl <=? SOON_TIME) && afterSoonWindowStart tl then 1%nat else 0%nat)
  /\ host_after r = mkHost (clock h) (S (reads h)) (nextTimer h)
  /\ (SOON_TIME < tl ->
      state (result r) = set_timeLeft tl (state this)
      /\ intervalId (result r) = Some id).
Proof.
  intros Hrun Hph Hst Hs Hid Hlatch.
  open_engine this h. cbn in Hrun, Hph, Hst, Hid, Hlatch.
  subst run ph st iid latch.
  apply Z.eqb_neq in Hs.
  unfold_engine;
    unfold effects, result, host_after, shouldTransitionPhase, next_now,
      getCurrentPhaseDuration, SOON_TIME.
  cbn. rewrite Hs. cbn. rewrite afterSoonWindowStart_spec.
  destruct (Z.leb_spec (rt - (clk rd - s)) 0),
    (Z.leb_spec (rt - (clk rd - s)) 10000),
    (Z.leb_spec 9934 (rt - (clk rd - s))); cbn; try lia;
    split_tests; count_events; rewrite ?count_nil;
    repeat split; try reflexivity; try lia.
Qed.

(** While the recomputed time stays above [SOON_TIME], ticks play no soon
    cue and keep the engine running in the Work phase with the latch
    unset; each reads the clock once. *)
Lemma ticks_before_soon (n : nat) :
  forall (this : TimerLogic) (h : HostState) (s : Z) (id : positive),
    isRunning (state this) = true ->
    phase (state this) = WORK ->
    startTime (state this) = Some s ->
    s <> 0 ->
    intervalId this = Some id ->
    soonSoundPlayed (state this) = false ->
    (forall i, (i < n)%nat ->
       SOON_TIME < roundTime (state this) - (clock h (reads h + i) - s)) ->
    let r := ticks n this h in
    count is_PlaySoon (effects r) = 0%nat
    /\ isRunning (state (result r)) = true
    /\ phase (state (result r)) = WORK
    /\ startTime (state (result r)) = Some s
    /\ intervalId (result r) = Some id
    /\ soonSoundPlayed (state (result r)) = false
    /\ roundTime (state (result r)) = roundTime (state this)
    /\ clock (host_after r) = clock h
    /\ reads (host_after r) = (reads h + n)%nat.
Proof.
  induction n as [| n IH]; intros this h s id Hrun Hph Hst Hs Hid Hlatch Habove;
    cbn [ticks]; cbn zeta.
  - cbn. rewrite Nat.add_0_r. repeat split; assumption.
  - rewrite effects_bind, result_bind, host_after_bind, count_app.
    destruct (tick_work_step this h s id Hrun Hph Hst Hs Hid Hlatch)
      as (Hcount & Hhost & Hstate).
    assert (Hfirst : SOON_TIME < roundTime (state this) - (next_now h - s)).
    { unfold next_now. specialize (Habove 0%nat ltac:(lia)).
      rewrite Nat.add_0_r in Habove. exact Habove. }
    destruct (Hstate Hfirst) as [Hs' Hid'].
    apply Z.leb_gt in Hfirst. rewrite Hfirst in Hcount. cbn in Hcount.
    rewrite Hcount, Hhost.
    specialize (IH (result (tick this h))
                   (mkHost (clock h) (S (reads h)) (nextTimer h)) s id).
    rewrite Hs' in IH. cbn in IH.
    destruct IH as (H1 & H2 & H3 & H4 & H5 & H6 & H7 & H8 & H9);
      try assumption.
    { intros i Hi. rewrite <- Nat.add_succ_r. apply Habove. lia. }
    rewrite H1, H9, Nat.add_succ_r. repeat split; assumption.
Qed.

(** C5.  In a run of ticks of an engine running in the Work phase with
    the latch unset, let the tick after the first [n] be the first at
    which the recomputed [timeLeft] is [<= 10000].  The ticks before it
    play no soon cue.  That tick plays the cue, once, exactly when its
    [timeLeft] is still above [SOON_TIME - 2 * RENDER_RATE]; then the
    whole run plays it exactly once, however many ticks follow.  A first
    tick at or below the threshold that lands past that window does not
    play the cue.  In every case a run of ticks plays the cue at most
    once. *)
Theorem soon_cue_once
    (this : TimerLogic) (h : HostState) (s : Z) (id : positive) (n : nat) :
  isRunning (state this) = true ->
  phase (state this) = WORK ->
  startTime (state this) = Some s ->
  s <> 0 ->
  intervalId this = Some id ->
  soonSoundPlayed (state this) = false ->
  (forall i, (i < n)%nat ->
     SOON_TIME < roundTime (state this) - (clock h (reads h + i) - s)) ->
  let tl := roundTime (state this) - (clock h (reads h + n) - s) in
  tl <= SOON_TIME ->
  let before := ticks n this h in
  let at_soon := tick (result before) (host_after before) in
  count is_PlaySoon (effects before) = 0%nat
  /\ count is_PlaySoon (effects at_soon)
     = (if afterSoonWindowStart tl then 1%nat else 0%nat)
  /\ (afterSoonWindowStart tl = true ->
      forall m, count is_PlaySoon (effects (ticks (n + (1 + m)) this h))
                = 1%nat)
  /\ (forall m, (count is_PlaySoon (effects (ticks m this h)) <= 1)%nat).
Proof.
  intros Hrun Hph Hst Hs Hid Hlatch Habove tl Hle before at_soon.
  destruct (ticks_before_soon n this h s id Hrun Hph Hst Hs Hid Hlatch Habove)
    as (H0 & Hrun' & Hph' & Hst' & Hid' & Hlatch' & Hrt' & Hclk & Hrd).
  fold before in H0, Hrun', Hph', Hst', Hid', Hlatch', Hrt', Hclk, Hrd.
  destruct (tick_work_step (result before) (host_after before) s id
              Hrun' Hph' Hst' Hs Hid' Hlatch') as (Hcount & _ & _).
  fold at_soon in Hcount.
  unfold next_now in Hcount. rewrite Hrt', Hclk, Hrd in Hcount.
  fold tl in Hcount.
  apply Z.leb_le in Hle. rewrite Hle in Hcount. cbn in Hcount.
  split; [exact H0 |]. split; [exact Hcount |]. split.
  - intros Hwin m. rewrite Hwin in Hcount.
    destruct (ticks_add n (1 + m) this h) as (He & _ & _).
    cbn zeta in He. fold before in He. rewrite He, count_app, H0.
    cbn [ticks Nat.add]. rewrite effects_bind, count_app.
    fold at_soon. rewrite Hcount.
    destruct (tick_soon_le (result before) (host_after before))
      as [Hzero | [_ Hq]].
    + fold at_soon in Hzero. congruence.
    + fold at_soon in Hq. rewrite (ticks_quiet m _ _ Hq). reflexivity.
  - intros m. apply ticks_soon_at_most_once.
Qed.

Lemma soon_cue_once_witness :
  let this := started_at 1000 in
  let h := host_of_list [290000; 291050; 291060; 291500] in
  isRunning (state this) = true
  /\ phase (state this) = WORK
  /\ startTime (state this) = Some 1000
  /\ intervalId this = Some 1%positive
  /\ soonSoundPlayed (state this) = false
  /\ (forall i, (i < 1)%nat ->
        SOON_TIME < roundTime (state this) - (clock h (reads h + i) - 1000))
  /\ roundTime (state this) - (clock h (reads h + 1) - 1000) = 9950
  /\ count is_PlaySoon (effects (ticks 1 this h)) = 0%nat
  /\ count is_PlaySoon
       (effects (tick (result (ticks 1 this h)) (host_after (ticks 1 this h))))
     = 1%nat
  /\ count is_PlaySoon (effects (ticks 4 this h)) = 1%nat.
Proof.
  cbn zeta.
  assert (Habove : forall i, (i < 1)%nat ->
            SOON_TIME
            < roundTime (state (started_at 1000))
              - (clock (host_of_list [290000; 291050; 291060; 291500])
                       (reads (host_of_list [290000; 291050; 291060; 291500])
                        + i) - 1000)).
  { intros i Hi. destruct i as [| i]; [reflexivity | lia]. }
  repeat (split; [reflexivity |]).
  split; [exact Habove |].
  split; [reflexivity |].
  destruct (soon_cue_once (started_at 1000)
              (host_of_list [290000; 291050; 291060; 291500])
              1000 1%positive 1%nat
              eq_refl eq_refl eq_refl ltac:(discriminate) eq_refl eq_refl
              Habove ltac:(discriminate))
    as (Hbefore & Hat & Hall & _).
  split; [exact Hbefore |]. split; [exact Hat |].
  exact (Hall eq_refl 2%nat).
Defined.

(** C5, as stated, fails: when the first tick at which [timeLeft] is
    [<= 10000] comes late ([timeLeft = 9000] here, after a tick at
    [11000]), no tick of that Work phase plays the soon cue, up to and
    including the tick that ends the phase. *)
Lemma soon_cue_missed :
  let this := started_at 1000 in
  let h := host_of_list [290000; 292000; 296000; 300000; 301001] in
  timeLeft (state (result (ticks 1 this h))) = 11000
  /\ timeLeft (state (result (ticks 2 this h))) = 9000
  /\ timeLeft (state (result (ticks 4 this h))) = 1000
  /\ phase (state (result (ticks 4 this h))) = WORK
  /\ isRunning (state (result (ticks 4 this h))) = true
  /\ count is_PlaySoon (effects (ticks 4 this h)) = 0%nat
  /\ phase (state (result (ticks 5 this h))) = IDLE
  /\ count is_PlayFinish (effects (ticks 5 this h)) = 1%nat
  /\ count is_PlaySoon (effects (ticks 5 this h)) = 0%nat.
Proof.
  cbn zeta. repeat split.
Qed.

(* ================================================================== *)
(** ** Further properties of the engine *)

Lemma reachable_induction (P : TimerLogic -> Prop) :
  (forall initialSettings, P (constructor initialSettings)) ->
  (forall o this h, P this -> P (result (step o this h))) ->
  forall this, reachable this -> P this.
Proof.
  intros Hinit Hstep this (opts & ops & h & ->).
  generalize (Hinit opts). generalize (constructor opts) as e.
  revert h. induction ops as [| o ops IH]; intros h e He; cbn [run].
  - exact He.
  - rewrite result_bind. apply IH, Hstep, He.
Qed.

Lemma step_running_inv (o : Op) (this : TimerLogic) (h : HostState) :
  running_inv this -> running_inv (result (step o this h)).
Proof.
  unfold running_inv. intros [Hrun Hst]. open_engine this h.
  cbn in Hrun, Hst.
  destruct o as [| | | | d | [r] | | c | c |];
    unfold_engine; unfold subscribe, unsubscribe, result,
      shouldTransitionPhase; cbn;
    destruct run, iid as [id |]; cbn in *; try discriminate;
    split_tests; cbn; split; intros; try reflexivity; try discriminate;
    auto.
Qed.

(** X1.  The configured duration of a reachable engine is never below
    [MIN_ROUND_TIME]. *)
Theorem reachable_roundTime_min (this : TimerLogic) :
  reachable this -> MIN_ROUND_TIME <= roundTime (state this).
Proof.
  intros Hreach. apply (reachable_inv this Hreach).
Qed.

Lemma reachable_roundTime_min_witness :
  reachable paused /\ MIN_ROUND_TIME <= roundTime (state paused).
Proof.
  assert (Hreach : reachable paused).
  { exists noOptions, [OpSubscribe 7%nat; OpStart; OpTick; OpPause],
      (host_of_list [1000; 1001; 61000]).
    reflexivity. }
  split; [exact Hreach |].
  exact (reachable_roundTime_min paused Hreach).
Defined.

(** X2.  A reachable engine in the Idle phase is stopped, has neither
    timestamp, and shows a time between [0] and [roundTime]. *)
Theorem reachable_idle_stopped (this : TimerLogic) :
  reachable this ->
  phase (state this) = IDLE ->
  isRunning (state this) = false
  /\ startTime (state this) = None
  /\ sessionStartTime (state this) = None
  /\ 0 <= timeLeft (state this) <= roundTime (state this).
Proof.
  intros Hreach Hph.
  destruct (reachable_inv this Hreach) as [_ Hidle]. exact (Hidle Hph).
Qed.

Lemma reachable_idle_stopped_witness :
  let this := result (run [OpAdjustCurrentTime (-5000)] (constructor noOptions)
                          (host_of_list [])) in
  reachable this
  /\ phase (state this) = IDLE
  /\ isRunning (state this) = false
  /\ startTime (state this) = None
  /\ sessionStartTime (state this) = None
  /\ 0 <= timeLeft (state this) <= roundTime (state this).
Proof.
  cbn zeta.
  assert (Hreach : reachable
            (result (run [OpAdjustCurrentTime (-5000)] (constructor noOptions)
                         (host_of_list [])))).
  { exists noOptions, [OpAdjustCurrentTime (-5000)], (host_of_list []).
    reflexivity. }
  split; [exact Hreach |]. split; [reflexivity |].
  exact (reachable_idle_stopped _ Hreach eq_refl).
Defined.

(** X3.  A reachable engine holds an interval handle exactly while it is
    running, and a running engine is in the Work phase with a start
    timestamp. *)
Theorem reachable_running (this : TimerLogic) :
  reachable this ->
  (isRunning (state this) = true <-> intervalId this <> None)
  /\ (isRunning (state this) = true ->
      phase (state this) = WORK /\ startTime (state this) <> None).
Proof.
  intros Hreach.
  assert (Hinv : running_inv this).
  { revert this Hreach. apply reachable_induction.
    - intros opts. split; [reflexivity | discriminate].
    - intros o this h. apply step_running_inv. }
  destruct Hinv as [Hrun Hst].
  destruct (reachable_inv this Hreach) as [_ Hidle].
  split; [| intros Hr; split].
  - rewrite Hrun. destruct (intervalId this); cbn; split;
      congruence.
  - destruct (phase (state this)) eqn:Hph; [| reflexivity].
    destruct (Hidle Hph) as [Hoff _]. congruence.
  - specialize (Hst Hr). destruct (startTime (state this)); cbn in Hst;
      congruence.
Qed.

Lemma reachable_running_witness :
  reachable (started_at 1000)
  /\ (isRunning (state (started_at 1000)) = true
      <-> intervalId (started_at 1000) <> None)
  /\ (isRunning (state (started_at 1000)) = true ->
      phase (state (started_at 1000)) = WORK
      /\ startTime (state (started_at 1000)) <> None).
Proof.
  split; [exact reachable_started |].
  exact (reachable_running (started_at 1000) reachable_started).
Defined.

(** Counts the events of a list made of explicit cells and of
    notifications. *)
Ltac count_calls :=
  cbn;
  rewrite ?app_nil_r;
  rewrite ?count_app, ?count_cons, ?count_notifications
    by (intros; reflexivity);
  rewrite ?count_nil;
  cbn.

Lemma step_interval_balance (o : Op) (this : TimerLogic) (h : HostState) :
  (count is_SetInterval (effects (step o this h)) + held this
   = count is_ClearInterval (effects (step o this h))
     + held (result (step o this h)))%nat.
Proof.
  open_engine this h.
  destruct o as [| | | | d | [r] | | c | c |];
    unfold_engine; unfold subscribe, unsubscribe, result, effects, held,
      shouldTransitionPhase; cbn;
    destruct iid as [id |]; cbn;
    try (destruct (existsb _ subs); cbn);
    split_tests; count_calls; reflexivity.
Qed.

(** X4.  Along any run, from any engine and under any host, the calls of
    [setInterval] and of [clearInterval] balance with the handle the
    instance holds: every interval that was set and is not held any more
    was cleared. *)
Theorem run_interval_balance (ops : list Op) :
  forall (this : TimerLogic) (h : HostState),
    (count is_SetInterval (effects (run ops this h)) + held this
     = count is_ClearInterval (effects (run ops this h))
       + held (result (run ops this h)))%nat.
Proof.
  induction ops as [| o ops IH]; intros this h; cbn [run].
  - cbn. rewrite !count_nil. reflexivity.
  - rewrite effects_bind, result_bind, !count_app.
    pose proof (step_interval_balance o this h) as Hstep.
    pose proof (IH (result (step o this h)) (host_after (step o this h)))
      as Hrest.
    lia.
Qed.

(** X5.  [reset()] on any engine gives the initial state for the same
    [roundTime] and holds no handle; a second [reset()] changes nothing,
    clears no interval and only notifies the subscribers again. *)
Theorem reset_twice (this : TimerLogic) (h h' : HostState) :
  let r1 := reset this h in
  let r2 := reset (result r1) h' in
  state (result r1) = createInitialState (roundTime (state this))
  /\ intervalId (result r1) = None
  /\ result r2 = result r1
  /\ effects r2 = notifications_of (result r1)
  /\ host_after r2 = h'.
Proof.
  open_engine this h. destruct h' as [clk' rd' nt'].
  unfold_engine; unfold result, effects, host_after, notifications_of; cbn.
  destruct iid as [id |]; cbn; rewrite ?app_nil_r; repeat split.
Qed.

Lemma toggle_lastActionTime (this : TimerLogic) (h : HostState) :
  100 <= next_now h - lastActionTime this ->
  lastActionTime (result (toggle this h)) = next_now h.
Proof.
  intros Hgap. open_engine this h. unfold next_now in Hgap. cbn in Hgap.
  unfold_engine; unfold result, next_now; cbn.
  destruct (Z.ltb_spec (clk rd - lat) 100) as [Hlt | _]; [lia |].
  cbn. split_tests; reflexivity.
Qed.

(** X6.  After a [toggle()] that took effect, a second [toggle()] less
    than 100 ms later (by the clock it reads) is ignored: the instance is
    unchanged and no call is made; only the clock has been read. *)
Theorem toggle_twice_debounced (this : TimerLogic) (h h' : HostState) :
  100 <= next_now h - lastActionTime this ->
  next_now h' - next_now h < 100 ->
  let first := result (toggle this h) in
  toggle first h' = (first, host_after (Date_now h'), []).
Proof.
  intros Hgap Hsoon first.
  pose proof (toggle_lastActionTime this h Hgap) as Hlast. fold first in Hlast.
  unfold toggle, bind. unfold next_now in Hsoon.
  cbn. rewrite Hlast. unfold next_now.
  destruct (Z.ltb_spec (clock h' (reads h') - clock h (reads h)) 100)
    as [_ | Hge]; [reflexivity | lia].
Qed.

Lemma toggle_twice_debounced_witness :
  let this := fresh in
  let h := host_of_list [5000; 5001; 5002] in
  let h' := host_of_list [5050] in
  100 <= next_now h - lastActionTime this
  /\ next_now h' - next_now h < 100
  /\ isRunning (state (result (toggle this h))) = true
  /\ toggle (result (toggle this h)) h'
     = (result (toggle this h), host_after (Date_now h'), []).
Proof.
  cbn zeta.
  split; [discriminate |]. split; [reflexivity |]. split; [reflexivity |].
  apply (toggle_twice_debounced fresh (host_of_list [5000; 5001; 5002])
           (host_of_list [5050])).
  - discriminate.
  - reflexivity.
Defined.

(** What a tick stores when its guard passes and time remains. *)
Lemma tick_timeLeft_positive
    (this : TimerLogic) (h : HostState) (s : Z) (id : positive) :
  isRunning (state this) = true ->
  startTime (state this) = Some s ->
  s <> 0 ->
  intervalId this = Some id ->
  0 < roundTime (state this) - (next_now h - s) ->
  let r := result (tick this h) in
  timeLeft (state r) = roundTime (state this) - (next_now h - s)
  /\ isRunning (state r) = true
  /\ phase (state r) = phase (state this)
  /\ roundTime (state r) = roundTime (state this)
  /\ startTime (state r) = Some s
  /\ intervalId r = Some id.
Proof.
  intros Hrun Hst Hs Hid Hpos.
  open_engine this h. unfold next_now in Hpos.
  cbn in Hrun, Hst, Hid, Hpos. subst run st iid.
  apply Z.eqb_neq in Hs.
  unfold_engine;
    unfold result, shouldTransitionPhase, getCurrentPhaseDuration, next_now;
    cbn.
  rewrite Hs; cbn.
  destruct (Z.leb_spec (rt - (clk rd - s)) 0) as [Hle | _]; [lia |].
  split_tests; repeat split.
Qed.

(** The engine that [start()] leaves when it was stopped. *)
Lemma start_stopped (this : TimerLogic) (h : HostState) :
  isRunning (state this) = false ->
  let t := match phase (state this) with
           | IDLE => roundTime (state this)
           | WORK => timeLeft (state this)
           end in
  let r := result (start this h) in
  isRunning (state r) = true
  /\ phase (state r) = WORK
  /\ timeLeft (state r) = t
  /\ roundTime (state r) = roundTime (state this)
  /\ startTime (state r) = Some (next_now h - (roundTime (state this) - t))
  /\ sessionStartTime (state r)
     = (if truthy (sessionStartTime (state this))
        then sessionStartTime (state this)
        else Some (next_now h))
  /\ intervalId r = Some (nextTimer h).
Proof.
  intros Hrun. open_engine this h. cbn in Hrun. subst run.
  unfold_engine; unfold result, getCurrentPhaseDuration, next_now; cbn.
  destruct ph; cbn; destruct (truthy sst) eqn:Hsst, iid as [id |]; cbn;
    repeat split; f_equal; lia.
Qed.

(** X7.  After [start()] on a stopped engine, fresh or paused, a tick [d]
    ms later stores the time that remained at the start minus [d]
    ([roundTime] for a fresh start, the frozen [timeLeft] for a resume),
    as long as that is positive and the computed [startTime] is not
    [0]. *)
Theorem start_then_tick (this : TimerLogic) (h h' : HostState) (d : Z) :
  isRunning (state this) = false ->
  let t := match phase (state this) with
           | IDLE => roundTime (state this)
           | WORK => timeLeft (state this)
           end in
  next_now h - (roundTime (state this) - t) <> 0 ->
  next_now h' = next_now h + d ->
  0 < t - d ->
  timeLeft (state (result (tick (result (start this h)) h'))) = t - d.
Proof.
  intros Hrun t Hnz Hlater Hpos.
  destruct (start_stopped this h Hrun)
    as (Hrun' & _ & Htl & Hrt & Hst & _ & Hid).
  cbn zeta in Hrun', Htl, Hrt, Hst, Hid. fold t in Htl, Hst.
  destruct (tick_timeLeft_positive (result (start this h)) h'
              (next_now h - (roundTime (state this) - t)) (nextTimer h)
              Hrun' Hst Hnz Hid) as [Hres _].
  - rewrite Hrt, Hlater. lia.
  - rewrite Hres, Hrt, Hlater. lia.
Qed.

Lemma start_then_tick_witness :
  isRunning (state paused) = false
  /\ next_now (host_of_list [99999]) - (roundTime (state paused) - 240000) <> 0
  /\ next_now (host_of_list [100999]) = next_now (host_of_list [99999]) + 1000
  /\ 0 < 240000 - 1000
  /\ timeLeft (state (result (tick (result (start paused
                                              (host_of_list [99999])))
                                   (host_of_list [100999]))))
     = 240000 - 1000.
Proof.
  split; [reflexivity |]. split; [discriminate |].
  split; [reflexivity |]. split; [reflexivity |].
  apply (start_then_tick paused (host_of_list [99999])
           (host_of_list [100999]) 1000).
  - reflexivity.
  - discriminate.
  - reflexivity.
  - reflexivity.
Defined.

(** The engine that [adjustCurrentTime] leaves when it runs. *)
Lemma adjust_running (delta : Z) (this : TimerLogic) (h : HostState) :
  isRunning (state this) = true ->
  let t' := Z.min (Z.max 0 (timeLeft (state this) + delta))
                  (roundTime (state this)) in
  let r := result (adjustCurrentTime delta this h) in
  state r
  = set_startTime (Some (next_now h - (roundTime (state this) - t')))
      (set_timeLeft t' (state this))
  /\ intervalId r = intervalId this.
Proof.
  intros Hrun. open_engine this h. cbn in Hrun. subst run.
  unfold_engine; unfold result, getCurrentPhaseDuration, next_now; cbn.
  split; reflexivity.
Qed.

(** What a tick does when its guard passes in the Work phase and no time
    remains. *)
Lemma tick_expired_work
    (this : TimerLogic) (h : HostState) (s : Z) (id : positive) :
  isRunning (state this) = true ->
  phase (state this) = WORK ->
  startTime (state this) = Some s ->
  s <> 0 ->
  intervalId this = Some id ->
  roundTime (state this) - (next_now h - s) <= 0 ->
  tick this h
  = (set_state (createInitialState (roundTime (state this)))
       (set_intervalId None this),
     host_after (Date_now h),
     PlayFinish :: ClearInterval id
       :: map (fun callback =>
                 Notify callback (createInitialState (roundTime (state this))))
              (subscribers this)).
Proof.
  intros Hrun Hph Hst Hs Hid Hle.
  open_engine this h. unfold next_now in Hle.
  cbn in Hrun, Hph, Hst, Hid, Hle. subst run ph st iid.
  apply Z.eqb_neq in Hs.
  unfold_engine;
    unfold shouldTransitionPhase, getCurrentPhaseDuration, host_after; cbn.
  rewrite Hs; cbn.
  destruct (Z.leb_spec (rt - (clk rd - s)) 0) as [_ | Hgt]; [| lia].
  rewrite app_nil_r. reflexivity.
Qed.

(** X8.  After [adjustCurrentTime(delta)] on a running engine, a tick [d]
    ms later stores the adjusted, clamped time minus [d], as long as that
    is positive and the recomputed [startTime] is not [0]: the adjustment
    carries over to the running countdown. *)
Theorem adjust_then_tick
    (this : TimerLogic) (h h' : HostState) (delta d : Z) (id : positive) :
  isRunning (state this) = true ->
  intervalId this = Some id ->
  let t' := Z.min (Z.max 0 (timeLeft (state this) + delta))
                  (roundTime (state this)) in
  next_now h - (roundTime (state this) - t') <> 0 ->
  next_now h' = next_now h + d ->
  0 < t' - d ->
  timeLeft (state (result (tick (result (adjustCurrentTime delta this h)) h')))
  = t' - d.
Proof.
  intros Hrun Hid t' Hnz Hlater Hpos.
  destruct (adjust_running delta this h Hrun) as [Hstate Hid'].
  cbn zeta in Hstate, Hid'. fold t' in Hstate. rewrite Hid in Hid'.
  set (adjusted := result (adjustCurrentTime delta this h)) in *.
  assert (Hrt : roundTime (state adjusted) = roundTime (state this))
    by (rewrite Hstate; reflexivity).
  destruct (tick_timeLeft_positive adjusted h'
              (next_now h - (roundTime (state this) - t')) id) as [Hres _].
  - rewrite Hstate. exact Hrun.
  - rewrite Hstate. reflexivity.
  - exact Hnz.
  - exact Hid'.
  - rewrite Hrt, Hlater. lia.
  - rewrite Hres, Hrt, Hlater. lia.
Qed.

Lemma adjust_then_tick_witness :
  let this := started_at 1000 in
  let h := host_of_list [61000] in
  let h' := host_of_list [61500] in
  isRunning (state this) = true
  /\ intervalId this = Some 1%positive
  /\ next_now h - (roundTime (state this)
                   - Z.min (Z.max 0 (timeLeft (state this) + -120000))
                           (roundTime (state this))) <> 0
  /\ next_now h' = next_now h + 500
  /\ timeLeft (state (result (tick (result (adjustCurrentTime (-120000) this h))
                                   h')))
     = 180000 - 500.
Proof.
  cbn zeta.
  split; [reflexivity |]. split; [reflexivity |].
  split; [discriminate |]. split; [reflexivity |].
  apply (adjust_then_tick (started_at 1000) (host_of_list [61000])
           (host_of_list [61500]) (-120000) 500 1%positive).
  - reflexivity.
  - reflexivity.
  - discriminate.
  - reflexivity.
  - reflexivity.
Defined.

(** X9.  Adjusting a running Work phase down to nothing
    ([timeLeft + delta <= 0]) ends it at the next tick, whenever that
    tick comes at or after the adjustment: the finish cue plays once and
    the engine is back in its initial idle state.  (The recomputed
    [startTime] must not be [0].) *)
Theorem adjust_to_zero_finishes
    (this : TimerLogic) (h h' : HostState) (delta : Z) (id : positive) :
  isRunning (state this) = true ->
  phase (state this) = WORK ->
  intervalId this = Some id ->
  0 <= roundTime (state this) ->
  timeLeft (state this) + delta <= 0 ->
  next_now h <> roundTime (state this) ->
  next_now h <= next_now h' ->
  let r := tick (result (adjustCurrentTime delta this h)) h' in
  count is_PlayFinish (effects r) = 1%nat
  /\ state (result r) = createInitialState (roundTime (state this))
  /\ intervalId (result r) = None.
Proof.
  intros Hrun Hph Hid Hrt Hzero Hnz Hlater.
  destruct (adjust_running delta this h Hrun) as [Hstate Hid'].
  cbn zeta in Hstate, Hid'. rewrite Hid in Hid'.
  replace (Z.min (Z.max 0 (timeLeft (state this) + delta))
                 (roundTime (state this))) with 0 in Hstate by lia.
  cbn zeta.
  set (adjusted := result (adjustCurrentTime delta this h)) in *.
  assert (Hrt' : roundTime (state adjusted) = roundTime (state this))
    by (rewrite Hstate; reflexivity).
  rewrite (tick_expired_work adjusted h'
             (next_now h - (roundTime (state this) - 0)) id).
  - unfold effects, result; cbn. rewrite Hrt'. repeat split.
    rewrite !count_cons, count_notifications by (intros; reflexivity).
    reflexivity.
  - rewrite Hstate. exact Hrun.
  - rewrite Hstate. exact Hph.
  - rewrite Hstate. reflexivity.
  - lia.
  - exact Hid'.
  - rewrite Hrt'. lia.
Qed.

Lemma adjust_to_zero_finishes_witness :
  let this := started_at 1000 in
  let h := host_of_list [61000] in
  let h' := host_of_list [61033] in
  isRunning (state this) = true
  /\ phase (state this) = WORK
  /\ intervalId this = Some 1%positive
  /\ timeLeft (state this) + -999999 <= 0
  /\ next_now h <= next_now h'
  /\ count is_PlayFinish
       (effects (tick (result (adjustCurrentTime (-999999) this h)) h'))
     = 1%nat
  /\ state (result (tick (result (adjustCurrentTime (-999999) this h)) h'))
     = createInitialState 300000.
Proof.
  cbn zeta.
  split; [reflexivity |]. split; [reflexivity |]. split; [reflexivity |].
  split; [discriminate |]. split; [discriminate |].
  destruct (adjust_to_zero_finishes (started_at 1000) (host_of_list [61000])
              (host_of_list [61033]) (-999999) 1%positive)
    as (Hcount & Hstate & _).
  - reflexivity.
  - reflexivity.
  - reflexivity.
  - discriminate.
  - discriminate.
  - discriminate.
  - discriminate.
  - split; [exact Hcount | exact Hstate].
Defined.

(* ================================================================== *)
(** ** Notifications *)

Lemma filter_notifications (s : TimerState) (subs : list nat) :
  filter is_Notify (map (fun callback => Notify callback s) subs)
  = map (fun callback => Notify callback s) subs.
Proof.
  induction subs as [| c subs IH]; cbn; [reflexivity |].
  rewrite IH. reflexivity.
Qed.

(** An operation notifies nobody, or every subscriber once with the state
    it ends in; the subscribers are then the ones it started with. *)
Lemma step_notifications (o : Op) (this : TimerLogic) (h : HostState) :
  filter is_Notify (effects (step o this h)) = []
  \/ (filter is_Notify (effects (step o this h))
      = notifications_of (result (step o this h))
      /\ subscribers (result (step o this h)) = subscribers this).
Proof.
  open_engine this h.
  destruct o as [| | | | d | [r] | | c | c |];
    unfold_engine; unfold subscribe, unsubscribe, result, effects,
      notifications_of, shouldTransitionPhase; cbn;
    try (destruct (existsb _ subs); cbn);
    split_tests; rewrite ?app_nil_r, ?filter_notifications; auto.
Qed.

(** X10.  On a tick that stores a positive [timeLeft], the subscribers
    are notified only if none has been notified by a tick yet
    ([lastNotifyTime] is [0]) or at least 100 ms have passed since; then
    they get the state after the tick and the time is recorded.  Within
    100 ms the tick updates [timeLeft] and notifies nobody. *)
Theorem tick_throttles_notifications
    (this : TimerLogic) (h : HostState) (s : Z) (id : positive) :
  isRunning (state this) = true ->
  startTime (state this) = Some s ->
  s <> 0 ->
  intervalId this = Some id ->
  0 < roundTime (state this) - (next_now h - s) ->
  let r := tick this h in
  timeLeft (state (result r)) = roundTime (state this) - (next_now h - s)
  /\ (lastNotifyTime this <> 0 ->
      next_now h - lastNotifyTime this < 100 ->
      filter is_Notify (effects r) = []
      /\ lastNotifyTime (result r) = lastNotifyTime this)
  /\ (lastNotifyTime this = 0 \/ 100 <= next_now h - lastNotifyTime this ->
      filter is_Notify (effects r) = notifications_of (result r)
      /\ lastNotifyTime (result r) = next_now h).
Proof.
  intros Hrun Hst Hs Hid Hpos.
  open_engine this h. unfold next_now in *.
  cbn in Hrun, Hst, Hid, Hpos. subst run st iid.
  apply Z.eqb_neq in Hs.
  unfold_engine;
    unfold result, effects, notifications_of, shouldTransitionPhase,
      getCurrentPhaseDuration; cbn.
  rewrite Hs; cbn.
  destruct (Z.leb_spec (rt - (clk rd - s)) 0) as [Hle | _]; [lia |].
  destruct (Z.eqb_spec lnt 0) as [Hz | Hnz],
    (Z.leb_spec 100 (clk rd - lnt)) as [Hfar | Hnear]; cbn;
    split_tests; rewrite ?app_nil_r, ?filter_notifications;
    (split; [reflexivity |]); split; intros; try lia;
    try (split; reflexivity);
    match goal with H : _ \/ _ |- _ => destruct H; lia end.
Qed.

Lemma tick_throttles_notifications_witness :
  let this := result (tick (started_at 1000) (host_of_list [61000])) in
  let h := host_of_list [61033] in
  isRunning (state this) = true
  /\ startTime (state this) = Some 1000
  /\ intervalId this = Some 1%positive
  /\ lastNotifyTime this = 61000
  /\ timeLeft (state (result (tick this h))) = 300000 - (61033 - 1000)
  /\ filter is_Notify (effects (tick this h)) = []
  /\ lastNotifyTime (result (tick this h)) = 61000.
Proof.
  cbn zeta.
  do 4 (split; [reflexivity |]).
  destruct (tick_throttles_notifications
              (result (tick (started_at 1000) (host_of_list [61000])))
              (host_of_list [61033]) 1000 1%positive
              eq_refl eq_refl ltac:(discriminate) eq_refl eq_refl)
    as (Htl & Hnear & _).
  split; [exact Htl |].
  apply Hnear; [discriminate | reflexivity].
Defined.



Lemma ticks_stopped (n : nat) :
  forall (this : TimerLogic) (h : HostState),
    isRunning (state this) = false ->
    ticks n this h = (this, h, []).
Proof.
  induction n as [| n IH]; intros this h Hoff; cbn [ticks].
  - reflexivity.
  - unfold bind. rewrite tick_disabled.
    + rewrite (IH this h Hoff). reflexivity.
    + unfold tick_enabled. rewrite Hoff. reflexivity.
Qed.

(** X13.  After [destroy()] the engine is stopped, holds no handle and has
    no subscriber; ticks that still fire do nothing at all, and no
    operation notifies anybody until a callback subscribes again. *)
Theorem destroy_silences (this : TimerLogic) (h : HostState) :
  let gone := result (destroy this h) in
  isRunning (state gone) = false
  /\ intervalId gone = None
  /\ subscribers gone = []
  /\ (forall n h', ticks n gone h' = (gone, h', []))
  /\ (forall o h', filter is_Notify (effects (step o gone h')) = []).
Proof.
  cbn zeta.
  assert (Hgone : isRunning (state (result (destroy this h))) = false
                  /\ intervalId (result (destroy this h)) = None
                  /\ subscribers (result (destroy this h)) = []).
  { open_engine this h. unfold_engine; unfold result; cbn.
    destruct iid; cbn; repeat split. }
  destruct Hgone as (Hoff & Hid & Hsubs).
  split; [exact Hoff |]. split; [exact Hid |]. split; [exact Hsubs |].
  split.
  - intros n h'. apply ticks_stopped, Hoff.
  - intros o h'.
    destruct (step_notifications o (result (destroy this h)) h')
      as [Hnone | [Hall Hsame]]; [exact Hnone |].
    rewrite Hall. unfold notifications_of. rewrite Hsame, Hsubs. reflexivity.
Qed.

(* ================================================================== *)
(** ** Sessions, settings and the end of a round *)

(** X14.  The session start survives a pause: after [pause()] and a later
    [start()], [sessionStartTime] is what it was, provided it was set to
    a timestamp other than [0]; [reset()] clears it. *)
Theorem session_kept_across_pause (this : TimerLogic) (h h' h'' : HostState) :
  isRunning (state this) = true ->
  truthy (sessionStartTime (state this)) = true ->
  let resumed := result (start (result (pause this h)) h') in
  sessionStartTime (state resumed) = sessionStartTime (state this)
  /\ sessionStartTime (state (result (reset resumed h''))) = None.
Proof.
  intros Hrun Hsst.
  open_engine this h. destruct h' as [clk' rd' nt'].
  destruct h'' as [clk'' rd'' nt''].
  cbn in Hrun, Hsst. subst run.
  unfold_engine; unfold result; cbn.
  destruct iid, ph; cbn; rewrite Hsst; cbn; split; reflexivity.
Qed.

Lemma session_kept_across_pause_witness :
  let this := started_at 1000 in
  isRunning (state this) = true
  /\ truthy (sessionStartTime (state this)) = true
  /\ sessionStartTime
       (state (result (start (result (pause this (host_of_list [])))
                             (host_of_list [99999]))))
     = Some 1000.
Proof.
  cbn zeta. split; [reflexivity |]. split; [reflexivity |].
  destruct (session_kept_across_pause (started_at 1000) (host_of_list [])
              (host_of_list [99999]) (host_of_list []) eq_refl eq_refl)
    as [Hkept _].
  exact Hkept.
Defined.

(** X15.  [updateSettings] during a running Work phase leaves [timeLeft]
    and [startTime] as they are, but the next tick recomputes the
    remaining time from the new duration: it is the new, clamped
    [roundTime] minus the time elapsed since [startTime], so the
    countdown shifts by the change of duration. *)
Theorem updateSettings_shifts_running
    (this : TimerLogic) (h h' : HostState) (r s : Z) (id : positive) :
  isRunning (state this) = true ->
  phase (state this) = WORK ->
  startTime (state this) = Some s ->
  s <> 0 ->
  intervalId this = Some id ->
  0 < Z.max MIN_ROUND_TIME r - (next_now h' - s) ->
  let updated := result (updateSettings {| opt_roundTime := Some r |} this h) in
  state updated = set_roundTime (Z.max MIN_ROUND_TIME r) (state this)
  /\ timeLeft (state (result (tick updated h')))
     = Z.max MIN_ROUND_TIME r - (next_now h' - s).
Proof.
  intros Hrun Hph Hst Hs Hid Hpos updated.
  assert (Hstate : state updated
                   = set_roundTime (Z.max MIN_ROUND_TIME r) (state this)
                   /\ intervalId updated = Some id).
  { subst updated. open_engine this h. cbn in Hrun, Hph, Hst, Hid.
    subst run ph st iid.
    unfold_engine; unfold result, validateSettings; cbn. split; reflexivity. }
  destruct Hstate as [Hstate Hid'].
  split; [exact Hstate |].
  destruct (tick_timeLeft_positive updated h' s id) as [Hres _].
  - rewrite Hstate. exact Hrun.
  - rewrite Hstate. exact Hst.
  - exact Hs.
  - exact Hid'.
  - rewrite Hstate. exact Hpos.
  - rewrite Hres, Hstate. reflexivity.
Qed.

Lemma updateSettings_shifts_running_witness :
  let this := started_at 1000 in
  let h' := host_of_list [61000] in
  isRunning (state this) = true
  /\ phase (state this) = WORK
  /\ startTime (state this) = Some 1000
  /\ intervalId this = Some 1%positive
  /\ timeLeft (state (result (tick this h'))) = 240000
  /\ timeLeft
       (state (result (tick (result (updateSettings
                                       {| opt_roundTime := Some 600000 |}
                                       this (host_of_list [])))
                            h')))
     = 540000.
Proof.
  cbn zeta. do 5 (split; [reflexivity |]).
  destruct (updateSettings_shifts_running (started_at 1000) (host_of_list [])
              (host_of_list [61000]) 600000 1000 1%positive
              eq_refl eq_refl eq_refl ltac:(discriminate) eq_refl eq_refl)
    as [_ Htick].
  exact Htick.
Defined.

(** X16.  A tick on a reachable engine has one of three outcomes: it does
    nothing; or it ends the round, leaving the initial idle state and no
    handle; or it leaves the engine running in the Work phase with a
    positive [timeLeft].  A running engine is never left with the time
    used up. *)
Theorem tick_outcome (this : TimerLogic) (h : HostState) :
  reachable this ->
  let r := tick this h in
  r = (this, h, [])
  \/ (state (result r) = createInitialState (roundTime (state this))
      /\ intervalId (result r) = None)
  \/ (isRunning (state (result r)) = true
      /\ phase (state (result r)) = WORK
      /\ 0 < timeLeft (state (result r))).
Proof.
  intros Hreach. cbn zeta.
  destruct (tick_enabled this) eqn:Hen.
  - apply tick_enabled_true in Hen.
    destruct Hen as (Hrun & (s & Hst & Hs) & (id & Hid)).
    assert (Hph : phase (state this) = WORK).
    { destruct (phase (state this)) eqn:Hph; [| reflexivity].
      destruct (reachable_inv this Hreach) as [_ Hidle].
      destruct (Hidle Hph) as [Hoff _]. congruence. }
    right.
    destruct (Z.le_gt_cases (roundTime (state this) - (next_now h - s)) 0)
      as [Hle | Hgt].
    + left.
      rewrite (tick_expired_work this h s id Hrun Hph Hst Hs Hid Hle).
      split; reflexivity.
    + right.
      destruct (tick_timeLeft_positive this h s id Hrun Hst Hs Hid)
        as (Htl & Hrun' & Hph' & _); [lia |].
      cbn zeta in Htl, Hrun', Hph'.
      rewrite Htl, Hph', Hph. repeat split; [exact Hrun' | lia].
  - left. apply tick_disabled, Hen.
Qed.

Lemma tick_outcome_witness :
  reachable (started_at 1000)
  /\ isRunning (state (result (tick (started_at 1000)
                                    (host_of_list [61000])))) = true.
Proof.
  split; [exact reachable_started |].
  destruct (tick_outcome (started_at 1000) (host_of_list [61000])
              reachable_started) as [Hsame | [[Hreset _] | [Hrun _]]].
  - rewrite Hsame. reflexivity.
  - discriminate Hreset.
  - exact Hrun.
Defined.

(** X17.  Adjusting by [d] and then by [-d] gives back the [timeLeft] the
    engine had when the first adjustment was not clamped; when the first
    one hit the ceiling [roundTime], the second leaves
    [max(0, roundTime - d)] instead. *)
Theorem adjust_back_and_forth (this : TimerLogic) (h h' : HostState) (d : Z) :
  0 <= timeLeft (state this) <= roundTime (state this) ->
  let back := result (adjustCurrentTime (- d)
                        (result (adjustCurrentTime d this h)) h') in
  (0 <= timeLeft (state this) + d <= roundTime (state this) ->
   timeLeft (state back) = timeLeft (state this))
  /\ (roundTime (state this) < timeLeft (state this) + d ->
      timeLeft (state back) = Z.max 0 (roundTime (state this) - d)).
Proof.
  intros Hin back.
  destruct (adjustCurrentTime_timeLeft d this h) as [Htl1 Hrt1].
  destruct (adjustCurrentTime_timeLeft (- d)
              (result (adjustCurrentTime d this h)) h') as [Htl2 _].
  fold back in Htl2. rewrite Htl2, Htl1, Hrt1.
  split; intros Hd; lia.
Qed.

Lemma adjust_back_and_forth_witness :
  let this := paused in
  0 <= timeLeft (state this) <= roundTime (state this)
  /\ timeLeft (state (result (adjustCurrentTime (- 1000)
                                (result (adjustCurrentTime 1000 this
                                           (host_of_list [])))
                                (host_of_list []))))
     = 240000
  /\ timeLeft (state (result (adjustCurrentTime (- 100000)
                                (result (adjustCurrentTime 100000 this
                                           (host_of_list [])))
                                (host_of_list []))))
     = 200000.
Proof.
  cbn zeta.
  assert (Hin : 0 <= timeLeft (state paused) <= roundTime (state paused))
    by (split; discriminate).
  split; [exact Hin |]. split.
  - destruct (adjust_back_and_forth paused (host_of_list []) (host_of_list [])
                1000 Hin) as [Hback _].
    apply Hback. split; discriminate.
  - destruct (adjust_back_and_forth paused (host_of_list []) (host_of_list [])
                100000 Hin) as [_ Hsat].
    apply Hsat. reflexivity.
Defined.

(** X18.  A phase transition to Idle builds, whatever the clock and
    whatever the state it starts from, the initial state for the same
    [roundTime]: the state [reset()] installs. *)
Theorem transition_to_idle_is_initial
    (s : TimerState) (this : TimerLogic) (h h' : HostState) :
  result (createPhaseTransition s IDLE h) = createInitialState (roundTime s)
  /\ state (result (reset this h'))
     = result (createPhaseTransition (state this) IDLE h).
Proof.
  destruct s as [run0 tl0 ph0 st0 sst0 rt0 latch0].
  open_engine this h'.
  unfold_engine; unfold result, phaseTransitionAt, createInitialState; cbn.
  destruct iid; cbn; split; reflexivity.
Qed.

(* ================================================================== *)
(** ** When the cues play *)

Lemma count_zero_not_In (p : Event -> bool) (e : Event) (l : list Event) :
  p e = true -> In e l -> count p l <> 0%nat.
Proof.
  intros Hp Hin Hzero. unfold count in Hzero.
  assert (Hf : In e (filter p l)) by (apply filter_In; split; assumption).
  destruct (filter p l); [exact Hf | discriminate].
Qed.

(** What holds of a tick that played the soon cue. *)
Lemma tick_played_soon (this : TimerLogic) (h : HostState) :
  In PlaySoon (effects (tick this h)) ->
  let r := result (tick this h) in
  isRunning (state this) = true
  /\ phase (state this) = WORK
  /\ soonSoundPlayed (state this) = false
  /\ timeLeft (state r)
     = roundTime (state this) - (next_now h - toNumber (startTime (state this)))
  /\ 9934 <= timeLeft (state r) <= SOON_TIME
  /\ soonSoundPlayed (state r) = true
  /\ isRunning (state r) = true.
Proof.
  intros Hin.
  apply (count_zero_not_In is_PlaySoon) in Hin; [| reflexivity].
  revert Hin. open_engine this h.
  unfold_engine;
    unfold effects, result, shouldTransitionPhase, getCurrentPhaseDuration,
      next_now, SOON_TIME; cbn.
  destruct run, latch, iid as [id |], (truthy st), ph; cbn;
    try (intros Hc; exfalso; apply Hc; reflexivity);
    rewrite ?afterSoonWindowStart_spec;
    destruct (Z.leb_spec (rt - (clk rd - toNumber st)) 0); cbn;
    destruct (Z.leb_spec (rt - (clk rd - toNumber st)) 10000); cbn;
    destruct (Z.leb_spec 9934 (rt - (clk rd - toNumber st))); cbn;
    split_tests; count_calls;
    try (intros Hc; exfalso; apply Hc; reflexivity);
    intros _; repeat split; assumption.
Qed.



(** X20.  The finish cue plays only from a tick, on an engine running in
    the Work phase whose recomputed [timeLeft] is [<= 0]; it plays once
    and the engine is then in the initial idle state, holding no handle.
    No other operation plays it. *)
Theorem finish_cue_only_on_expiry (o : Op) (this : TimerLogic) (h : HostState) :
  In PlayFinish (effects (step o this h)) ->
  let r := step o this h in
  o = OpTick
  /\ isRunning (state this) = true
  /\ phase (state this) = WORK
  /\ roundTime (state this) - (next_now h - toNumber (startTime (state this)))
     <= 0
  /\ count is_PlayFinish (effects r) = 1%nat
  /\ state (result r) = createInitialState (roundTime (state this))
  /\ intervalId (result r) = None.
Proof.
  intros Hin.
  apply (count_zero_not_In is_PlayFinish) in Hin; [| reflexivity].
  revert Hin. open_engine this h.
  destruct o as [| | | | d | [r] | | c | c |];
    unfold_engine;
    unfold subscribe, unsubscribe, effects, result, shouldTransitionPhase,
      getCurrentPhaseDuration, next_now; cbn;
    try (destruct (existsb _ subs); cbn);
    try (destruct run, iid as [id |], (truthy st), ph; cbn;
         try (intros Hc; exfalso; apply Hc; reflexivity);
         destruct (Z.leb_spec (rt - (clk rd - toNumber st)) 0); cbn);
    split_tests; count_calls;
    try (intros Hc; exfalso; apply Hc; reflexivity);
    intros _; repeat split; assumption.
Qed.

Lemma finish_cue_only_on_expiry_witness :
  let this := started_at 1000 in
  let h := host_of_list [301005] in
  In PlayFinish (effects (step OpTick this h))
  /\ state (result (step OpTick this h)) = createInitialState 300000.
Proof.
  cbn zeta.
  assert (Hin : In PlayFinish
                  (effects (step OpTick (started_at 1000)
                              (host_of_list [301005]))))
    by (vm_compute; left; reflexivity).
  split; [exact Hin |].
  destruct (finish_cue_only_on_expiry OpTick (started_at 1000)
              (host_of_list [301005]) Hin)
    as (_ & _ & _ & _ & _ & Hstate & _).
  rewrite Hstate. vm_compute. reflexivity.
Defined.

(* ================================================================== *)
(** ** The hook *)

Module UseTimerFacts.
Import String Ascii UseTimer.

(** X21.  [updateRoundTime(newTime)] sets the engine's [roundTime] to
    [max(30000, newTime)], notifies the subscribers and then saves, once
    and under the key ["roundTime"], exactly the [roundTime] the engine
    now has; an engine built later from the saved value has the same
    [roundTime]. *)
Theorem updateRoundTime_saves_roundTime
    (newTime : Z) (this : TimerLogic) (h : HostState) :
  let r := updateRoundTime newTime this h in
  let after := fst (fst r) in
  roundTime (state after) = Z.max 30000 newTime
  /\ snd r
     = (map FromEngine (notifications_of after)
        ++ [SaveToLocalStorage "roundTime" (roundTime (state after))])%list
  /\ roundTime (state (useTimer_logic (roundTime (state after))))
     = roundTime (state after).
Proof.
  open_engine this h.
  unfold updateRoundTime, useTimer_logic, constructor, notifications_of.
  unfold_engine; unfold validateSettings, MIN_ROUND_TIME, SECOND; cbn.
  replace (Z.max 30000 (Z.max 30000 newTime)) with (Z.max 30000 newTime)
    by lia.
  destruct ph; cbn; rewrite ?app_nil_r; (split; [reflexivity |]);
    (split; [reflexivity |]);
    (destruct (Z.eqb_spec (Z.max 30000 newTime) 0) as [Hz | _];
     [exfalso; lia | cbn [negb]; lia]).
Qed.



(** X23.  On the state of a reachable engine the status text names the
    three states of the machine: ["Running"] exactly when it runs,
    ["Stopped"] exactly in the Idle phase, ["Paused"] exactly when it is
    stopped in the Work phase. *)
Theorem getStatusText_states (this : TimerLogic) :
  reachable this ->
  let text := getStatusText (state this) in
  (text = "Running"%string <-> isRunning (state this) = true)
  /\ (text = "Stopped"%string <-> phase (state this) = IDLE)
  /\ (text = "Paused"%string
      <-> isRunning (state this) = false /\ phase (state this) = WORK).
Proof.
  intros Hreach.
  destruct (reachable_inv this Hreach) as [_ Hidle].
  unfold idle_stopped in Hidle. cbn zeta. unfold getStatusText, isIdle.
  destruct (isRunning (state this)), (phase (state this)); cbn;
    repeat split; intros; try discriminate; try reflexivity;
    try (destruct Hidle as [Hoff _]; [reflexivity | discriminate]);
    match goal with H : _ /\ _ |- _ => destruct H; discriminate end.
Qed.

Lemma getStatusText_states_witness :
  reachable (started_at 1000)
  /\ getStatusText (state (started_at 1000)) = "Running"%string.
Proof.
  split; [exact reachable_started |].
  destruct (getStatusText_states (started_at 1000) reachable_started)
    as [Hrunning _].
  apply Hrunning. reflexivity.
Defined.

(** [Math.ceil(time / 1000)] is the number of seconds begun. *)
Lemma ceil_seconds_spec (time k : Z) :
  1000 * (k - 1) < time <= 1000 * k -> ceil_seconds time = k.
Proof.
  intros Hk. unfold ceil_seconds.
  pose proof (Z.div_mod (- time) 1000 ltac:(lia)) as Hdm.
  pose proof (Z.mod_pos_bound (- time) 1000 ltac:(lia)) as Hb.
  lia.
Qed.

Lemma ceil_seconds_bounds (time : Z) :
  1000 * (ceil_seconds time - 1) < time <= 1000 * ceil_seconds time.
Proof.
  unfold ceil_seconds.
  pose proof (Z.div_mod (- time) 1000 ltac:(lia)) as Hdm.
  pose proof (Z.mod_pos_bound (- time) 1000 ltac:(lia)) as Hb.
  lia.
Qed.

(** Below 100, [toString] padded to two characters is the two digits. *)
Lemma padStart_two_digits (n : Z) :
  0 <= n < 100 -> padStart 2 "0"%char (toString n) = two_digits n.
Proof.
  intros Hn.
  assert (Hall : forallb
                   (fun k => String.eqb
                               (padStart 2 "0"%char (toString (Z.of_nat k)))
                               (two_digits (Z.of_nat k)))
                   (seq 0 100) = true) by (vm_compute; reflexivity).
  rewrite forallb_forall in Hall.
  specialize (Hall (Z.to_nat n)).
  rewrite Z2Nat.id in Hall by lia.
  apply String.eqb_eq, Hall, in_seq. lia.
Qed.

Lemma digit_inj (a b : Z) :
  0 <= a < 10 -> 0 <= b < 10 -> digit a = digit b -> a = b.
Proof.
  intros Ha Hb Heq. unfold digit in Heq.
  apply (f_equal nat_of_ascii) in Heq.
  rewrite !nat_ascii_embedding in Heq by lia.
  lia.
Qed.

Lemma two_digits_inj (a b : Z) :
  0 <= a < 100 -> 0 <= b < 100 -> two_digits a = two_digits b -> a = b.
Proof.
  intros Ha Hb Heq. unfold two_digits in Heq.
  injection Heq as Hhi Hlo.
  apply digit_inj in Hhi; [| Z.div_mod_to_equations; lia ..].
  apply digit_inj in Hlo; [| Z.div_mod_to_equations; lia ..].
  Z.div_mod_to_equations; lia.
Qed.

(** X24.  A time of [0] or less is shown as ["00:00"], so the
    [Math.max(0, timeLeft)] of the caller changes nothing. *)
Theorem formatTime_nonpositive (time : Z) :
  (time <= 0 -> formatTime time = "00:00"%string)
  /\ formatTime (Z.max 0 time) = formatTime time.
Proof.
  assert (Hzero : forall t, t <= 0 -> formatTime t = "00:00"%string).
  { intros t Ht. unfold formatTime.
    pose proof (ceil_seconds_bounds t) as Hb.
    replace (Z.max 0 (ceil_seconds t)) with 0 by lia. reflexivity. }
  split; [apply Hzero |].
  destruct (Z.le_gt_cases time 0) as [Hle | Hgt].
  - rewrite (Hzero time Hle). replace (Z.max 0 time) with 0 by lia.
    reflexivity.
  - replace (Z.max 0 time) with time by lia. reflexivity.
Qed.

Lemma formatTime_nonpositive_witness :
  -5 <= 0 /\ formatTime (-5) = "00:00"%string.
Proof.
  split; [discriminate |].
  destruct (formatTime_nonpositive (-5)) as [Hzero _].
  apply Hzero. discriminate.
Defined.

(** X25.  The text shows the second that is running until it has fully
    elapsed: every time in [(1000 * (k - 1), 1000 * k]] is shown as
    [1000 * k] is (2999 ms as 3 seconds). *)
Theorem formatTime_whole_seconds (time k : Z) :
  1000 * (k - 1) < time <= 1000 * k ->
  formatTime time = formatTime (1000 * k).
Proof.
  intros Hk. unfold formatTime.
  rewrite (ceil_seconds_spec time k Hk).
  rewrite (ceil_seconds_spec (1000 * k) k) by lia.
  reflexivity.
Qed.

Lemma formatTime_whole_seconds_witness :
  1000 * (3 - 1) < 2999 <= 1000 * 3
  /\ formatTime 2999 = "00:03"%string.
Proof.
  assert (Hk : 1000 * (3 - 1) < 2999 <= 1000 * 3) by (split; reflexivity || discriminate).
  split; [exact Hk |].
  rewrite (formatTime_whole_seconds 2999 3 Hk). reflexivity.
Defined.

(** X26.  Below 100 minutes the text is five characters, two digits of
    minutes, a colon and two digits of seconds, of the seconds begun
    ([ceil(time / 1000)]). *)
Theorem formatTime_digits (time : Z) :
  0 <= time <= 5999000 ->
  let totalSeconds := ceil_seconds time in
  formatTime time
  = (two_digits (totalSeconds / 60) ++ ":"
     ++ two_digits (totalSeconds mod 60))%string
  /\ String.length (formatTime time) = 5%nat.
Proof.
  intros Ht totalSeconds.
  pose proof (ceil_seconds_bounds time) as Hb. fold totalSeconds in Hb.
  assert (Hs : 0 <= totalSeconds <= 5999) by lia.
  assert (Hshape : formatTime time
                   = (two_digits (totalSeconds / 60) ++ ":"
                      ++ two_digits (totalSeconds mod 60))%string).
  { unfold formatTime. fold totalSeconds.
    replace (Z.max 0 totalSeconds) with totalSeconds by lia.
    rewrite !padStart_two_digits by (Z.div_mod_to_equations; lia).
    reflexivity. }
  split; [exact Hshape |]. rewrite Hshape. reflexivity.
Qed.

Lemma formatTime_digits_witness :
  0 <= 299001 <= 5999000
  /\ formatTime 299001 = "05:00"%string
  /\ String.length (formatTime 299001) = 5%nat.
Proof.
  assert (Ht : 0 <= 299001 <= 5999000) by (split; discriminate).
  split; [exact Ht |].
  destruct (formatTime_digits 299001 Ht) as [Hshape Hlen].
  split; [rewrite Hshape; reflexivity | exact Hlen].
Defined.

(** X27.  Below 100 minutes two times are shown alike only when the same
    second is running in both, so they are less than a second apart. *)
Theorem formatTime_injective (t1 t2 : Z) :
  0 <= t1 <= 5999000 ->
  0 <= t2 <= 5999000 ->
  formatTime t1 = formatTime t2 ->
  ceil_seconds t1 = ceil_seconds t2 /\ -1000 < t1 - t2 < 1000.
Proof.
  intros H1 H2 Heq.
  pose proof (ceil_seconds_bounds t1) as Hb1.
  pose proof (ceil_seconds_bounds t2) as Hb2.
  assert (Hshape : forall t, 0 <= t <= 5999000 ->
            formatTime t
            = (two_digits (ceil_seconds t / 60) ++ ":"
               ++ two_digits (ceil_seconds t mod 60))%string).
  { intros t Ht. pose proof (ceil_seconds_bounds t) as Hb.
    unfold formatTime.
    replace (Z.max 0 (ceil_seconds t)) with (ceil_seconds t) by lia.
    rewrite !padStart_two_digits by (Z.div_mod_to_equations; lia).
    reflexivity. }
  rewrite (Hshape t1 H1), (Hshape t2 H2) in Heq.
  unfold two_digits in Heq. cbn [append] in Heq.
  assert (Hm : ceil_seconds t1 / 60 = ceil_seconds t2 / 60).
  { apply two_digits_inj; [Z.div_mod_to_equations; lia ..|].
    unfold two_digits. congruence. }
  assert (Hs : ceil_seconds t1 mod 60 = ceil_seconds t2 mod 60).
  { apply two_digits_inj; [Z.div_mod_to_equations; lia ..|].
    unfold two_digits. congruence. }
  assert (Hc : ceil_seconds t1 = ceil_seconds t2).
  { rewrite (Z.div_mod (ceil_seconds t1) 60), (Z.div_mod (ceil_seconds t2) 60)
      by lia.
    rewrite Hm, Hs. reflexivity. }
  split; [exact Hc | lia].
Qed.

Lemma formatTime_injective_witness :
  0 <= 2999 <= 5999000 /\ 0 <= 2001 <= 5999000
  /\ formatTime 2999 = formatTime 2001
  /\ ceil_seconds 2999 = ceil_seconds 2001.
Proof.
  assert (H1 : 0 <= 2999 <= 5999000) by (split; discriminate).
  assert (H2 : 0 <= 2001 <= 5999000) by (split; discriminate).
  assert (Heq : formatTime 2999 = formatTime 2001) by reflexivity.
  split; [exact H1 |]. split; [exact H2 |]. split; [exact Heq |].
  destruct (formatTime_injective 2999 2001 H1 H2 Heq) as [Hc _].
  exact Hc.
Defined.

(** X28.  The state left by a tick that played the soon cue is one the
    hook reports as ending soon, and one it reports as running. *)
Theorem soon_cue_shows_ending_soon (this : TimerLogic) (h : HostState) :
  In PlaySoon (effects (tick this h)) ->
  isEndingSoon (state (result (tick this h))) = true
  /\ getStatusText (state (result (tick this h))) = "Running"%string.
Proof.
  intros Hin.
  destruct (tick_played_soon this h Hin)
    as (Hrun & Hph & _ & Htl & Hwin & _ & Hrun').
  cbn zeta in Htl, Hwin, Hrun'.
  assert (Hen : tick_enabled this = true).
  { destruct (tick_enabled this) eqn:Hen; [reflexivity |].
    rewrite (tick_disabled this h Hen) in Hin. destruct Hin. }
  apply tick_enabled_true in Hen.
  destruct Hen as (_ & (s & Hst & Hs) & (id & Hid)).
  destruct (tick_timeLeft_positive this h s id Hrun Hst Hs Hid)
    as (_ & _ & Hph' & _).
  { rewrite Hst in Htl. unfold toNumber in Htl. unfold SOON_TIME in Hwin.
    lia. }
  cbn zeta in Hph'.
  unfold isEndingSoon, getStatusText.
  rewrite Hph', Hph, Hrun'. cbn.
  split; [apply Z.leb_le; unfold SOON_TIME in *; lia | reflexivity].
Qed.

Lemma soon_cue_shows_ending_soon_witness :
  let this := result (tick (started_at 1000) (host_of_list [290000])) in
  let h := host_of_list [291050] in
  In PlaySoon (effects (tick this h))
  /\ isEndingSoon (state (result (tick this h))) = true.
Proof.
  cbn zeta.
  assert (Hin : In PlaySoon
                  (effects (tick (result (tick (started_at 1000)
                                            (host_of_list [290000])))
                                 (host_of_list [291050]))))
    by (vm_compute; left; reflexivity).
  split; [exact Hin |].
  destruct (soon_cue_shows_ending_soon
              (result (tick (started_at 1000) (host_of_list [290000])))
              (host_of_list [291050]) Hin) as [Hsoon _].
  exact Hsoon.
Defined.

Lemma distinct_map_inj {A : Type} (f : A -> string) (l : list A) :
  distinct (map f l) = true ->
  forall x y, In x l -> In y l -> f x = f y -> x = y.
Proof.
  induction l as [| a l IH]; intros Hd x y Hx Hy Heq; [destruct Hx |].
  cbn in Hd. apply andb_true_iff in Hd. destruct Hd as [Hfresh Hd].
  apply negb_true_iff in Hfresh.
  assert (Hclash : forall z, In z l -> f a = f z -> False).
  { intros z Hz Hfz.
    assert (Hex : existsb (String.eqb (f a)) (map f l) = true).
    { apply existsb_exists. exists (f z). split.
      - apply in_map, Hz.
      - apply String.eqb_eq, Hfz. }
    congruence. }
  destruct Hx as [-> | Hx], Hy as [-> | Hy].
  - reflexivity.
  - exfalso. exact (Hclash y Hy Heq).
  - exfalso. exact (Hclash x Hx (eq_sym Heq)).
  - exact (IH Hd x y Hx Hy Heq).
Qed.

Lemma clock_faces_all (hours minutes : Z) :
  0 <= hours < 24 -> 0 <= minutes < 60 -> In (hours, minutes) clock_faces.
Proof.
  intros Hh Hm. unfold clock_faces.
  apply in_flat_map. exists (Z.to_nat hours). split.
  - apply in_seq. lia.
  - apply in_map_iff. exists (Z.to_nat minutes). split.
    + rewrite !Z2Nat.id by lia. reflexivity.
    + apply in_seq. lia.
Qed.

(** X29.  No date gives the empty text, and two dates whose hours (0 to
    23) or minutes (0 to 59) differ are shown differently: the 12-hour
    text with its am or pm determines the time of day. *)
Theorem formatCurrentTime_injective (d d' : Date) :
  0 <= getHours d < 24 -> 0 <= getMinutes d < 60 ->
  0 <= getHours d' < 24 -> 0 <= getMinutes d' < 60 ->
  formatCurrentTime (Some d) = formatCurrentTime (Some d') ->
  d = d' /\ formatCurrentTime (Some d) <> formatCurrentTime None.
Proof.
  intros Hh Hm Hh' Hm' Heq.
  assert (Hall : distinct (map face_text clock_faces) = true)
    by (vm_compute; reflexivity).
  assert (Hpair : (getHours d, getMinutes d) = (getHours d', getMinutes d')).
  { apply (distinct_map_inj face_text clock_faces Hall).
    - apply clock_faces_all; assumption.
    - apply clock_faces_all; assumption.
    - unfold face_text. cbn [fst snd].
      destruct d, d'. exact Heq. }
  destruct d as [hh mm], d' as [hh' mm']. cbn in Hpair.
  injection Hpair as -> ->.
  split; [reflexivity |].
  unfold formatCurrentTime.
  destruct (toString _); discriminate.
Qed.

Lemma formatCurrentTime_injective_witness :
  formatCurrentTime (Some (mkDate 0 5)) = "12:05 am"%string
  /\ formatCurrentTime (Some (mkDate 12 5)) = "12:05 pm"%string
  /\ formatCurrentTime (Some (mkDate 13 45)) = "1:45 pm"%string
  /\ mkDate 13 45 = mkDate 13 45.
Proof.
  do 3 (split; [reflexivity |]).
  assert (Hh : 0 <= getHours (mkDate 13 45) < 24) by (cbn; lia).
  assert (Hm : 0 <= getMinutes (mkDate 13 45) < 60) by (cbn; lia).
  destruct (formatCurrentTime_injective (mkDate 13 45) (mkDate 13 45)
              Hh Hm Hh Hm eq_refl) as [Hsame _].
  exact Hsame.
Defined.

End UseTimerFacts.
